(** * FRCL analyzer: a shallow embedding of [frcl_analyzer.py]

    The script is one straight-line batch run over an uploaded table:
    self-join on the barcode columns, projection and renaming, numeric
    coercion of [FRCL] and [DeltaEZ1], the range filter, the per-value
    aggregate, an ordinary-least-squares fit, and the half-unit binning.

    Modelling choices.
    - A table is the list of its rows, in row order.  A cell read from the
      CSV is [option string]: [None] is an empty (NaN) cell.  A column is
      numeric or text according to its entries ([dtype_of]).
    - The data-frame library is taken with the defaults the script relies
      on: [read_csv] types each column, [merge] is an inner join that also
      pairs two empty keys and refuses keys of different types, [groupby]
      sorts its keys and drops NaN keys, [nunique] and [mean] skip missing
      values.  Whether grouping by a categorical column lists the
      categories without a record is a parameter [observed] of the run, as
      the script leaves it to the library's default.
    - The regression is a parameter [fit] of the run; [OLS_fit_predict] is
      a reference behaviour for it, least squares over the rationals.
    - A number is a [float]: either [NaN] or a rational.  Binary rounding
      and the infinities are not represented; every comparison the script
      makes is against a multiple of one half.
    - The text-to-number conversion of the data-frame library is a parameter
      [str_to_float] of the development, so that the results hold for
      whatever literals it accepts; [decimal_literal] is a concrete instance
      for plain decimal numbers, used to run the pipeline on examples.
    - The machine and the date of a row are carried as they are written in
      the CSV; the script computes nothing from them.
    - A raised exception is a value [Raise e] of the [result] type; the
      [try ... except Exception] around the run turns it into the reported
      error message.
    - The spreadsheet report and the three charts consume the tables and
      feed nothing back; they are modelled apart, in [Report] and [Charts].
      The page widgets that display them are left out. *)

From Stdlib Require Import List String Ascii Bool Arith ZArith QArith Qround Qabs.
From Stdlib Require Import Lia Lqa Sorted DecimalString.
Import ListNotations.

Local Open Scope string_scope.
Local Open Scope Q_scope.

(** ** Exceptions and the error monad *)

Inductive exn : Type :=
| ValueError (msg : string)
| AttributeError (msg : string).

Inductive result (A : Type) : Type :=
| Ok (a : A)
| Raise (e : exn).

Arguments Ok {A} a.
Arguments Raise {A} e.

Definition bind {A B : Type} (m : result A) (k : A -> result B) : result B :=
  match m with
  | Ok a => k a
  | Raise e => Raise e
  end.

Notation "x <- m ;; k" := (bind m (fun x => k))
  (at level 61, m at next level, right associativity).

Fixpoint mapM {A B : Type} (f : A -> result B) (l : list A) : result (list B) :=
  match l with
  | [] => Ok []
  | a :: l' => b <- f a ;; bs <- mapM f l' ;; Ok (b :: bs)
  end.

Definition raises {A : Type} (m : result A) : bool :=
  match m with
  | Ok _ => false
  | Raise _ => true
  end.

(** ** Cells and numbers *)

Definition cell : Type := option string.

Inductive float : Type :=
| NaN
| Num (q : Q).

Definition isna (x : float) : bool :=
  match x with
  | NaN => true
  | Num _ => false
  end.

(** [x >= c] and [x <= c] on a column element; a comparison with NaN is
    false. *)
Definition ge_const (x : float) (c : Q) : bool :=
  match x with
  | NaN => false
  | Num q => Qle_bool c q
  end.

Definition le_const (x : float) (c : Q) : bool :=
  match x with
  | NaN => false
  | Num q => Qle_bool q c
  end.

(** The values of a column that are not NaN. *)
Fixpoint dropna (l : list float) : list Q :=
  match l with
  | [] => []
  | NaN :: l' => dropna l'
  | Num q :: l' => q :: dropna l'
  end.

Fixpoint present {A : Type} (l : list (option A)) : list A :=
  match l with
  | [] => []
  | None :: l' => present l'
  | Some a :: l' => a :: present l'
  end.

Fixpoint Qsum (l : list Q) : Q :=
  match l with
  | [] => 0
  | q :: l' => q + Qsum l'
  end.

Definition Qlen {A : Type} (l : list A) : Q := inject_Z (Z.of_nat (List.length l)).

(** [Series.mean()]: NaN entries are skipped; the mean of no value is NaN. *)
Definition mean (l : list float) : float :=
  match dropna l with
  | [] => NaN
  | q :: qs => Num (Qsum (q :: qs) / Qlen (q :: qs))
  end.

(** [Series.nunique()]: the number of distinct values, empty cells not
    counted. *)
Definition nunique (l : list cell) : nat :=
  List.length (nodup string_dec (present l)).

(** ** String cleaning *)

(** [s.replace(c, repl)] for a one-character pattern. *)
Fixpoint str_replace (c : ascii) (repl : string) (s : string) : string :=
  match s with
  | EmptyString => EmptyString
  | String a s' =>
      if Ascii.eqb a c then repl ++ str_replace c repl s'
      else String a (str_replace c repl s')
  end.

(** The [.str.replace] accessor maps over the column and leaves an empty
    cell empty. *)
Definition series_str_replace (c : ascii) (repl : string) (x : cell) : cell :=
  option_map (str_replace c repl) x.

(** ** Rows *)

(** A row of the uploaded table; only the columns the script reads. *)
Record raw_row : Type := mk_raw {
  Barcode_AC : cell;
  Finishing_Machine : cell;
  Production_Date : cell;
  FRCL_text : cell;
  DeltaEZ1_text : cell;
  Barcode_BC : cell
}.

(** A row of [selected_data].  [N] is the type of the two measurement
    columns: [cell] right after the projection, [float] once coerced. *)
Record record (N : Type) : Type := mk_record {
  Machine : cell;
  Date : cell;
  Barcode : cell;
  FRCL : N;
  DeltaEZ1 : N
}.

Arguments mk_record {N}.
Arguments Machine {N}.
Arguments Date {N}.
Arguments Barcode {N}.
Arguments FRCL {N}.
Arguments DeltaEZ1 {N}.

(** ** The self-join and the cleaning, over the library's reader *)

Definition cell_eqb (a b : cell) : bool :=
  match a, b with
  | None, None => true
  | Some x, Some y => String.eqb x y
  | _, _ => false
  end.




Definition string_of_int (z : Z) : string := NilZero.string_of_int (Z.to_int z).

(** The text that stands for a number read from a numeric column: its
    numeral when it is an integer, its reduced fraction otherwise.  Two
    entries of a numeric column stand for the same number exactly when they
    get the same text. *)
Definition number_text (q : Q) : string :=
  let r := Qred q in
  if (Qden r =? 1)%positive then string_of_int (Qnum r)
  else (string_of_int (Qnum r) ++ "/" ++ string_of_int (Zpos (Qden r)))%string.

(** How [read_csv] types a column. *)
Inductive dtype : Type :=
| number
| object.

Definition dtype_eqb (a b : dtype) : bool :=
  match a, b with
  | number, number => true
  | object, object => true
  | _, _ => false
  end.

Section Pipeline.

(** What the data-frame library reads from a string: [Some q] for a
    numeric literal, [None] for anything else. *)
Variable str_to_float : string -> option Q.

Definition is_number (s : string) : bool :=
  match str_to_float s with
  | Some _ => true
  | None => false
  end.

Definition is_text (x : cell) : bool :=
  match x with
  | Some s => negb (is_number s)
  | None => false
  end.

(** The type [read_csv] infers for a column: a column with rows is numeric
    (int64 or float64) when each of its entries is empty or a numeric
    literal, and is an object (text) column as soon as one entry is not; a
    column without rows is an object column. *)
Definition dtype_of (col : list cell) : dtype :=
  match col with
  | [] => object
  | _ :: _ => if existsb is_text col then object else number
  end.


(** An entry as a value of the type of its column: in a numeric column the
    entries "007" and "7" are the same number. *)
Definition astype (d : dtype) (x : cell) : cell :=
  match d with
  | object => x
  | number =>
      match x with
      | None => None
      | Some s => option_map number_text (str_to_float s)
      end
  end.

(** The join condition of
    [data.merge(data, left_on='Barcode(AC)', right_on='Barcode(BC)')] on key
    columns of type [d].  The library matches two empty keys with each
    other. *)
Definition on_keys (d : dtype) (l r : raw_row) : bool :=
  cell_eqb (astype d (Barcode_AC l)) (astype d (Barcode_BC r)).

(** Inner join: for each left row in order, its matching right rows in
    order.  A joined row keeps both source rows, i.e. every column twice,
    once with suffix [_AC] (left) and once with suffix [_BC] (right). *)
Definition join (d : dtype) (left right : list raw_row)
  : list (raw_row * raw_row) :=
  flat_map (fun l => map (pair l) (filter (on_keys d l) right)) left.

(** [merge] refuses key columns of different types (a numeric one against
    a text one) with a [ValueError]. *)
Definition merge (left right : list raw_row)
  : result (list (raw_row * raw_row)) :=
  let dl := dtype_of (map Barcode_AC left) in
  let dr := dtype_of (map Barcode_BC right) in
  if dtype_eqb dl dr then Ok (join dl left right)
  else Raise (ValueError "You are trying to merge on columns of different types").

Definition merged_data (data : list raw_row) : result (list (raw_row * raw_row)) :=
  merge data data.

(** The type of the Barcode(AC) column, which is the type of the join keys
    when the join goes through, and the joined table then. *)
Definition key_dtype (data : list raw_row) : dtype :=
  dtype_of (map Barcode_AC data).

Definition joined (data : list raw_row) : list (raw_row * raw_row) :=
  join (key_dtype data) data data.


(** Whether a row finds a partner in the table: on its Barcode(AC), as the
    left row of a joined row, or on its Barcode(BC), as the right row. *)
Definition matched_left (data : list raw_row) (r : raw_row) : bool :=
  existsb (on_keys (key_dtype data) r) data.

Definition matched_right (data : list raw_row) (r : raw_row) : bool :=
  existsb (fun l => on_keys (key_dtype data) l r) data.

Definition matched (data : list raw_row) (r : raw_row) : bool :=
  matched_left data r || matched_right data r.

(** The five selected columns, renamed. *)
Definition select (d : dtype) (j : raw_row * raw_row) : record cell :=
  {| Machine := Finishing_Machine (fst j);
     Date := Production_Date (fst j);
     Barcode := astype d (Barcode_AC (fst j));
     FRCL := FRCL_text (fst j);
     DeltaEZ1 := DeltaEZ1_text (snd j) |}.

Definition selected_text (data : list raw_row) : list (record cell) :=
  map (select (key_dtype data)) (joined data).

(** The [errors=] argument of [pd.to_numeric]. *)
Inductive errors_mode : Type :=
| errors_raise
| errors_coerce.

(** [pd.to_numeric] on one element.  An empty cell is NaN already; a
    string that is no literal raises under [errors='raise'] and becomes NaN
    under [errors='coerce']. *)
Definition to_numeric (errors : errors_mode) (x : cell) : result float :=
  match x with
  | None => Ok NaN
  | Some s =>
      match str_to_float s with
      | Some q => Ok (Num q)
      | None =>
          match errors with
          | errors_coerce => Ok NaN
          | errors_raise => Raise (ValueError "Unable to parse string")
          end
      end
  end.

(** The [.str] accessor exists on a text column only; on a numeric column
    (every entry a number or empty) taking it raises. *)
Definition str_accessor (col : list cell) : result unit :=
  match dtype_of col with
  | object => Ok tt
  | number => Raise (AttributeError "Can only use .str accessor with string values")
  end.

(** One entry of the FRCL column:
    [pd.to_numeric(col.str.replace(',', ''), errors='coerce')]. *)
Definition parse_FRCL (x : cell) : result float :=
  to_numeric errors_coerce (series_str_replace "," "" x).

(** One entry of the DeltaEZ1 column: [pd.to_numeric(col, errors='coerce')]. *)
Definition parse_DeltaEZ1 (x : cell) : result float :=
  to_numeric errors_coerce x.

(** Both assignments applied to one row.  The script converts one whole
    column and then the other; with element-wise conversions the table
    obtained is the same. *)
Definition coerce_row (r : record cell) : result (record float) :=
  f <- parse_FRCL (FRCL r) ;;
  d <- parse_DeltaEZ1 (DeltaEZ1 r) ;;
  Ok {| Machine := Machine r; Date := Date r; Barcode := Barcode r;
        FRCL := f; DeltaEZ1 := d |}.

(** Whether the upload gets past the join and the accessor: key columns
    of one type, and a text FRCL column. *)
Definition text_column (col : list cell) : bool :=
  match dtype_of col with
  | object => true
  | number => false
  end.

Definition well_typed (data : list raw_row) : bool :=
  dtype_eqb (dtype_of (map Barcode_AC data)) (dtype_of (map Barcode_BC data))
  && text_column (map FRCL_text data).

(** Lines 21 to 34: the join, the projection, then the two conversions.
    The FRCL column of the joined table has the type of the uploaded
    one. *)
Definition selected_data (data : list raw_row) : result (list (record float)) :=
  merged <- merged_data data ;;
  _ <- str_accessor (map FRCL_text data) ;;
  mapM coerce_row (map (select (key_dtype data)) merged).

(** [selected_data[(DeltaEZ1 >= -3) & (DeltaEZ1 <= 3)]] *)
Definition in_range (r : record float) : bool :=
  ge_const (DeltaEZ1 r) (-3) && le_const (DeltaEZ1 r) 3.

Definition filtered_data (selected : list (record float)) : list (record float) :=
  filter in_range selected.

(** The value [errors='coerce'] produces, as a total function. *)
Definition coerced (x : cell) : float :=
  match x with
  | None => NaN
  | Some s =>
      match str_to_float s with
      | Some q => Num q
      | None => NaN
      end
  end.

Definition coerced_row (r : record cell) : record float :=
  {| Machine := Machine r; Date := Date r; Barcode := Barcode r;
     FRCL := coerced (series_str_replace "," "" (FRCL r));
     DeltaEZ1 := coerced (DeltaEZ1 r) |}.

(** The selected table of an upload on which neither the join nor the
    [.str] accessor raises. *)
Definition selected_rows (data : list raw_row) : list (record float) :=
  map coerced_row (selected_text data).


(** Rows whose DeltaEZ1, respectively FRCL, value is not missing. *)
Definition has_DeltaEZ1 (r : record float) : bool := negb (isna (DeltaEZ1 r)).

End Pipeline.

(** ** Grouping by exact DeltaEZ1 value *)

(** Insertion into the sorted list of distinct group keys. *)
Fixpoint insert_key (q : Q) (ks : list Q) : list Q :=
  match ks with
  | [] => [q]
  | k :: ks' =>
      match q ?= k with
      | Lt => q :: k :: ks'
      | Eq => k :: ks'
      | Gt => k :: insert_key q ks'
      end
  end.

(** The keys of [groupby]: the distinct values of the column, NaN dropped,
    in ascending order ([sort=True], [dropna=True] are the defaults). *)
Definition group_keys (col : list float) : list Q :=
  fold_right insert_key [] (dropna col).

Definition has_key (k : Q) (r : record float) : bool :=
  match DeltaEZ1 r with
  | NaN => false
  | Num q => Qeq_bool q k
  end.

Definition group (k : Q) (t : list (record float)) : list (record float) :=
  filter (has_key k) t.

(** A row of [grouped], before the prediction column is attached. *)
Record agg_row : Type := mk_agg {
  group_DeltaEZ1 : Q;
  Number_of_Tires : nat;
  Average_FRCL : float
}.

(** [.groupby('DeltaEZ1').agg({'Barcode': 'nunique', 'FRCL': 'mean'})] *)
Definition aggregate (k : Q) (t : list (record float)) : agg_row :=
  {| group_DeltaEZ1 := k;
     Number_of_Tires := nunique (map Barcode (group k t));
     Average_FRCL := mean (map FRCL (group k t)) |}.

Definition grouped (filtered : list (record float)) : list agg_row :=
  map (fun k => aggregate k filtered) (group_keys (map DeltaEZ1 filtered)).

(** Equality of column values: NaN in both places, or equal numbers. *)
Definition float_eq (x y : float) : Prop :=
  match x, y with
  | NaN, NaN => True
  | Num p, Num q => p == q
  | _, _ => False
  end.

(** ** The regression step *)

(** [X = sm.add_constant(x); sm.OLS(y, X).fit().predict(X)], as a
    reference behaviour in exact arithmetic.  The library computes in
    binary floating point, so its fitted values agree with these up to
    rounding only; the results on the run use the reference for when the
    call raises and for the number of values it returns, and are otherwise
    stated for any [fit].

    - Building the model on a table without rows raises: the library
      reduces the design matrix with [max] along the rows, and the
      reduction of a zero-size array is a [ValueError].
    - Nothing else is checked: not the number of rows, and not the
      response, which may hold NaN.  A NaN response makes every coefficient,
      hence every fitted value, NaN.
    - Otherwise the fitted values are the least-squares projection of [y]
      on the span of the intercept and [x].  When [x] is constant the
      design has rank one ([add_constant] does not add an intercept next to
      a non-zero constant column, and the fit is by pseudo-inverse), and the
      projection is the mean of [y]. *)
Definition Qmean (l : list Q) : Q := Qsum l / Qlen l.

Definition fitted_values (x y : list Q) : list Q :=
  let xbar := Qmean x in
  let ybar := Qmean y in
  let sxx := Qsum (map (fun a => (a - xbar) * (a - xbar)) x) in
  let sxy := Qsum (map (fun p => (fst p - xbar) * (snd p - ybar)) (combine x y)) in
  if Qeq_bool sxx 0 then map (fun _ => ybar) x
  else map (fun a => ybar + sxy / sxx * (a - xbar)) x.

Definition OLS_fit_predict (x : list Q) (y : list float) : result (list float) :=
  match x with
  | [] =>
      Raise (ValueError
        "zero-size array to reduction operation maximum which has no identity")
  | _ :: _ =>
      if existsb isna y then Ok (map (fun _ => NaN) x)
      else Ok (map Num (fitted_values x (dropna y)))
  end.

(** The column [grouped['OLS_Prediction']], for a given behaviour [fit] of
    the statistics library on the tire counts and the averages;
    [OLS_fit_predict] is the reference one. *)
Definition OLS_Prediction (fit : list Q -> list float -> result (list float))
           (g : list agg_row) : result (list float) :=
  fit (map (fun r => inject_Z (Z.of_nat (Number_of_Tires r))) g)
      (map Average_FRCL g).

(** ** Binning *)

(** [np.arange(start, stop, step)] for a positive step:
    [ceil((stop - start) / step)] values [start + i * step]. *)
Definition arange (start stop step : Q) : list Q :=
  map (fun i => start + inject_Z (Z.of_nat i) * step)
      (seq 0 (Z.to_nat (Qceiling ((stop - start) / step)))).

Definition deltaez1_bins : list Q := arange (-3) (31 # 10) (1 # 2).

(** The [i]-th bin edge in closed form. *)
Definition bin_edge (i : nat) : Q := -3 + inject_Z (Z.of_nat i) * (1 # 2).

Definition string_of_Z (z : Z) : string :=
  NilZero.string_of_uint (N.to_uint (Z.to_N z)).

(** How a bin edge prints in an f-string: sign, integer part and one
    fractional digit (the edges are multiples of one half). *)
Definition format_float (q : Q) : string :=
  let tenths := Qfloor (Qabs q * 10) in
  ((if Qle_bool 0 q then "" else "-")
   ++ string_of_Z (tenths / 10) ++ "." ++ string_of_Z (tenths mod 10))%string.

(** [[f'{bins[i]} to {bins[i + 1]}' for i in range(len(bins) - 1)]] *)
Definition bin_labels : list string :=
  map (fun i => (format_float (nth i deltaez1_bins 0) ++ " to "
                 ++ format_float (nth (i + 1) deltaez1_bins 0))%string)
      (seq 0 (List.length deltaez1_bins - 1)).

(** [bins.searchsorted(x, side='right')] on sorted bins: how many edges are
    at most [x]. *)
Definition searchsorted_right (bins : list Q) (x : Q) : nat :=
  List.length (filter (fun b => Qle_bool b x) bins).

(** [pd.cut(x, bins, right=False)]: the index of the bucket of [x], or
    [None] (NaN category) when [x] is NaN or the insertion point is before
    the first edge or at the last one. *)
Definition cut (bins : list Q) (x : float) : option nat :=
  match x with
  | NaN => None
  | Num q =>
      let ids := searchsorted_right bins q in
      if (ids =? 0)%nat || (ids =? List.length bins)%nat then None
      else Some (ids - 1)%nat
  end.

Definition DeltaEZ1_Range (r : record float) : option nat :=
  cut deltaez1_bins (DeltaEZ1 r).

Definition in_bucket (i : nat) (r : record float) : bool :=
  match DeltaEZ1_Range r with
  | Some j => (j =? i)%nat
  | None => false
  end.

Definition bucket (i : nat) (t : list (record float)) : list (record float) :=
  filter (in_bucket i) t.

(** A row of the Range Count table. *)
Record range_row : Type := mk_range {
  Range_label : string;
  Range_tires : nat
}.

Definition is_empty {A : Type} (l : list A) : bool :=
  match l with
  | [] => true
  | _ :: _ => false
  end.

(** Whether [groupby] on the categorical column lists bucket [i]: every
    bucket when it runs with [observed=False], the buckets that hold a
    record when it runs with [observed=True]. *)
Definition listed (observed : bool) (filtered : list (record float)) (i : nat)
  : bool :=
  negb observed || negb (is_empty (bucket i filtered)).

(** [.groupby('DeltaEZ1_Range').agg({'Barcode': 'nunique'})]: one row per
    listed category, in category order.  The script passes no [observed=],
    so [observed] is the default of the installed library. *)
Definition range_count_df (observed : bool) (filtered : list (record float))
  : list range_row :=
  map (fun i => {| Range_label := nth i bin_labels "";
                   Range_tires := nunique (map Barcode (bucket i filtered)) |})
      (filter (listed observed filtered) (seq 0 (List.length bin_labels))).

(** Whether [pd.cut] puts the record in some bucket. *)
Definition assigned (r : record float) : bool :=
  match DeltaEZ1_Range r with
  | Some _ => true
  | None => false
  end.

(** [DeltaEZ1 < 3] on a record; false on NaN. *)
Definition below_3 (r : record float) : bool :=
  match DeltaEZ1 r with
  | NaN => false
  | Num q => negb (Qle_bool 3 q)
  end.

(** The sum of the tire counts over the rows of the Range Count table. *)
Definition total_tires (rc : list range_row) : nat :=
  list_sum (map Range_tires rc).

(** ** One run *)

Record analysis : Type := mk_analysis {
  out_selected : list (record float);
  out_grouped : list (agg_row * float);
  out_range_count : list range_row
}.

Section Run.

Variable str_to_float : string -> option Q.

(** The library's default for [observed=] in [groupby]. *)
Variable observed : bool.

(** What the statistics library does with the tire counts and the
    averages: it raises, or returns one fitted value per row. *)
Variable fit : list Q -> list float -> result (list float).

Definition run (data : list raw_row) : result analysis :=
  selected <- selected_data str_to_float data ;;
  let filtered := filtered_data selected in
  let g := grouped filtered in
  prediction <- OLS_Prediction fit g ;;
  Ok {| out_selected := selected;
        out_grouped := combine g prediction;
        out_range_count := range_count_df observed filtered |}.

End Run.

(** ** A concrete reader for plain decimal literals *)

Definition digit_of (c : ascii) : option Z :=
  let n := nat_of_ascii c in
  if ((48 <=? n) && (n <=? 57))%nat then Some (Z.of_nat (n - 48)) else None.

Fixpoint digits (s : string) (num : Z) (den : positive) (frac seen : bool)
  : option Q :=
  match s with
  | EmptyString => if seen then Some (num # den) else None
  | String c s' =>
      if Ascii.eqb c "." then
        if frac then None else digits s' num den true seen
      else
        match digit_of c with
        | Some d =>
            digits s' (10 * num + d)%Z (if frac then (10 * den)%positive else den)
                   frac true
        | None => None
        end
  end.

Definition decimal_literal (s : string) : option Q :=
  match s with
  | String "-" s' => option_map Qopp (digits s' 0 1 false false)
  | String "+" s' => digits s' 0 1 false false
  | _ => digits s 0 1 false false
  end.


(** ** Sample uploads *)

Definition upload_row (ac machine date frcl delta bc : string) : raw_row :=
  {| Barcode_AC := Some ac; Finishing_Machine := Some machine;
     Production_Date := Some date; FRCL_text := Some frcl;
     DeltaEZ1_text := Some delta; Barcode_BC := Some bc |}.

(** Tire T1 finished once and measured once. *)
Definition finished_T1 : raw_row :=
  upload_row "T1" "FM1" "2024-01-05" "1,234.5" "9.9" "X0".

Definition measured_T1 : raw_row :=
  upload_row "X1" "FM2" "2024-01-06" "1,000" "0.2" "T1".

Definition one_tire : list raw_row := [finished_T1; measured_T1].


(** Tire T1 finished once and measured twice, both times in [0, 0.5). *)
Definition measured_twice : list raw_row :=
  one_tire ++ [ upload_row "X2" "FM2" "2024-01-07" "1,000" "0.3" "T1" ].

(** Three tires, each finished once and measured once: one at the lowest
    edge, one inside, one exactly at 3; one FRCL entry is not a number. *)
Definition three_tires : list raw_row :=
  [ upload_row "T1" "FM1" "2024-01-05" "1,234.5" "0.1" "X1";
    upload_row "T2" "FM1" "2024-01-05" "n/a" "0.1" "X2";
    upload_row "T3" "FM2" "2024-01-06" "2,000" "0.1" "X3";
    upload_row "Y1" "FM1" "2024-01-08" "0" "0.2" "T1";
    upload_row "Y2" "FM1" "2024-01-08" "0" "-3.0" "T2";
    upload_row "Y3" "FM2" "2024-01-09" "0" "3.0" "T3" ].

(** ** Auxiliary notions for the statements below *)

(** [c in s] for a character. *)
Fixpoint contains_char (c : ascii) (s : string) : bool :=
  match s with
  | EmptyString => false
  | String a s' => Ascii.eqb a c || contains_char c s'
  end.

(** ** The spreadsheet report *)

Module Report.

(** What a spreadsheet cell holds. *)
Inductive xvalue : Type :=
| Blank
| Text (s : string)
| Number (q : Q)
| Count (n : nat).

(** The style objects of the spreadsheet library, with the attributes the
    script sets; an attribute left out of a constructor call is [None]
    (or [false] for [bold]). *)
Record Alignment : Type := mk_Alignment {
  horizontal : option string;
  vertical : option string
}.

Record Font : Type := mk_Font {
  name : option string;
  size : option nat;
  bold : bool;
  color : option string
}.

Record PatternFill : Type := mk_PatternFill {
  start_color : option string;
  end_color : option string;
  fill_type : option string
}.

(** A cell of a worksheet: its coordinates (from 1), its value and its
    style attributes. *)
Record xcell : Type := mk_xcell {
  row : nat;
  column : nat;
  value : xvalue;
  alignment : Alignment;
  font : Font;
  fill : PatternFill
}.

(** A worksheet is the list of its rows; a workbook the list of its named
    sheets, in order. *)
Definition worksheet : Type := list (list xcell).
Definition workbook : Type := list (string * worksheet).











(** The body of the inner loop, on one cell of the sheet named [sheet]. *)
Definition style_cell (sheet : string) (c : xcell) : xcell :=
  let centered := mk_Alignment (Some "center") (Some "center") in
  let header_color :=
    if String.eqb sheet "Selected Data" then "FFD700" else "1E90FF" in
  if (row c =? 1)%nat then
    {| row := row c; column := column c; value := value c;
       alignment := centered;
       font := mk_Font None None true (Some "FFFFFF");
       fill := mk_PatternFill (Some header_color) (Some header_color) (Some "solid") |}
  else
    {| row := row c; column := column c; value := value c;
       alignment := centered;
       font := mk_Font (Some "Calibri") (Some 11%nat) false None;
       fill := fill c |}.

(** [for row in ws.iter_rows(...): for cell in row: ...] over the whole
    sheet. *)
Definition style_sheet (sheet : string) (ws : worksheet) : worksheet :=
  map (map (style_cell sheet)) ws.

(** [wb[sheet]]: the first sheet of that name; [None] stands for the
    [KeyError] of a workbook without it. *)
Fixpoint get_sheet (sheet : string) (wb : workbook) : option worksheet :=
  match wb with
  | [] => None
  | (n, ws) :: wb' => if String.eqb n sheet then Some ws else get_sheet sheet wb'
  end.

(** The sheet object is restyled in place. *)
Fixpoint set_sheet (sheet : string) (ws : worksheet) (wb : workbook) : workbook :=
  match wb with
  | [] => []
  | (n, old) :: wb' =>
      if String.eqb n sheet then (n, ws) :: wb'
      else (n, old) :: set_sheet sheet ws wb'
  end.

(** [for sheet in [...]: ws = wb[sheet]; ...], then [wb.save]: the saved
    workbook, or [None] when a sheet is missing (nothing is saved then). *)
Fixpoint style_sheets (sheets : list string) (wb : workbook) : option workbook :=
  match sheets with
  | [] => Some wb
  | sheet :: rest =>
      match get_sheet sheet wb with
      | None => None
      | Some ws => style_sheets rest (set_sheet sheet (style_sheet sheet ws) wb)
      end
  end.

Definition style_workbook (wb : workbook) : option workbook :=
  style_sheets ["Selected Data"; "Range Count"] wb.


(** The values of a sheet, row by row. *)
Definition sheet_values (ws : worksheet) : list (list xvalue) :=
  map (map value) ws.



End Report.

(** ** The three charts *)

Module Charts.

Inductive trace_kind : Type :=
| Bar
| Scatter.

(** A trace with the data it plots, its name, its mode (for [Scatter]) and
    its colour; the other visual attributes (marker size, outline, dash,
    opacity) play no part in what is plotted and are left out. *)
Record trace (X Y : Type) : Type := mk_trace {
  kind : trace_kind;
  mode : option string;
  name : string;
  color : string;
  x : list X;
  y : list Y
}.

Arguments mk_trace {X Y}.
Arguments kind {X Y}.
Arguments mode {X Y}.
Arguments name {X Y}.
Arguments color {X Y}.
Arguments x {X Y}.
Arguments y {X Y}.

Record Figure (X Y : Type) : Type := mk_Figure {
  traces : list (trace X Y);
  title : string;
  xaxis_title : string;
  yaxis_title : string
}.

Arguments mk_Figure {X Y}.
Arguments traces {X Y}.
Arguments title {X Y}.
Arguments xaxis_title {X Y}.
Arguments yaxis_title {X Y}.

(** The columns of [grouped] once the prediction is attached. *)
Definition col_DeltaEZ1 (g : list (agg_row * float)) : list Q :=
  map (fun a => group_DeltaEZ1 (fst a)) g.

Definition col_Number_of_Tires (g : list (agg_row * float)) : list nat :=
  map (fun a => Number_of_Tires (fst a)) g.

Definition col_Average_FRCL (g : list (agg_row * float)) : list float :=
  map (fun a => Average_FRCL (fst a)) g.

Definition col_OLS_Prediction (g : list (agg_row * float)) : list float :=
  map snd g.

Definition fig1 (out : analysis) : Figure Q nat :=
  {| traces :=
       [ mk_trace Bar None "Number of Tires" "steelblue"
                  (col_DeltaEZ1 (out_grouped out))
                  (col_Number_of_Tires (out_grouped out)) ];
     title := "Number of Tires by DeltaEZ1";
     xaxis_title := "DeltaEZ1";
     yaxis_title := "Number of Tires" |}.

Definition fig2 (out : analysis) : Figure Q float :=
  {| traces :=
       [ mk_trace Scatter (Some "markers") "Average FRCL" "darkorange"
                  (col_DeltaEZ1 (out_grouped out))
                  (col_Average_FRCL (out_grouped out));
         mk_trace Scatter (Some "lines") "OLS Regression Line" "green"
                  (col_DeltaEZ1 (out_grouped out))
                  (col_OLS_Prediction (out_grouped out)) ];
     title := "Average FRCL and OLS Regression by DeltaEZ1";
     xaxis_title := "DeltaEZ1";
     yaxis_title := "Average FRCL" |}.

Definition fig3 (out : analysis) : Figure string nat :=
  {| traces :=
       [ mk_trace Bar None "Number of Tires" "green"
                  (map Range_label (out_range_count out))
                  (map Range_tires (out_range_count out)) ];
     title := "Number of Tires in DeltaEZ1 Ranges (0.5 Interval)";
     xaxis_title := "DeltaEZ1 Range";
     yaxis_title := "Number of Tires" |}.

End Charts.


(** Barcodes written with and without leading zeros, all digits, so that
    both barcode columns are read as numbers. *)
Definition padded_barcodes : list raw_row :=
  [ upload_row "007" "FM1" "2024-01-05" "1,000" "0.2" "7";
    upload_row "7" "FM1" "2024-01-06" "1,100" "0.3" "9" ].

(** Numeric Barcode(AC) entries against text Barcode(BC) entries. *)
Definition mixed_barcodes : list raw_row :=
  [ upload_row "7" "FM1" "2024-01-05" "1,000" "0.2" "T7";
    upload_row "8" "FM1" "2024-01-06" "1,100" "0.3" "7" ].

(** An FRCL column of plain numbers. *)
Definition plain_FRCL : list raw_row :=
  [ upload_row "T1" "FM1" "2024-01-05" "900" "0.2" "T1" ].
(** * Properties *)

(** ** The pipeline on sample uploads *)

Example run_one_tire :
  run decimal_literal false OLS_fit_predict one_tire
  = Ok {| out_selected :=
            [ {| Machine := Some "FM1"; Date := Some "2024-01-05";
                 Barcode := Some "T1"; FRCL := Num 1234.5;
                 DeltaEZ1 := Num 0.2 |} ];
          out_grouped :=
            [ ({| group_DeltaEZ1 := 0.2; Number_of_Tires := 1;
                  Average_FRCL := Num 1234.5 |}, Num 1234.5) ];
          out_range_count :=
            map (fun l => {| Range_label := l;
                             Range_tires := if String.eqb l "0.0 to 0.5"
                                            then 1 else 0 |})
                bin_labels |}.
Proof. vm_compute. reflexivity. Qed.

Example run_no_upload_rows : raises (run decimal_literal false OLS_fit_predict []) = true.
Proof. reflexivity. Qed.

Example grouped_three_tires :
  map (fun a => (Qred (group_DeltaEZ1 a), Number_of_Tires a, Average_FRCL a))
      (grouped (filtered_data (selected_rows decimal_literal three_tires)))
  = [ (-3, 1%nat, NaN); (1 # 5, 1%nat, Num 1234.5); (3, 1%nat, Num 2000) ].
Proof. vm_compute. reflexivity. Qed.

Example fitted_values_line :
  Forall2 Qeq (fitted_values [1; 2; 3] [2; 4; 6]) [2; 4; 6].
Proof. repeat (constructor; [reflexivity|]). constructor. Qed.

Example decimal_literal_samples :
  map decimal_literal ["12"; "-0.5"; "1234.5"; "1,234.5"; "n/a"; ""]
  = [Some 12; Some (-0.5); Some 1234.5; None; None; None].
Proof. reflexivity. Qed.

Example to_numeric_raise_mode :
  to_numeric decimal_literal errors_raise (Some "n/a")
  = Raise (ValueError "Unable to parse string").
Proof. reflexivity. Qed.

(** ** Coercion never raises *)

Section Coercion.

Variable str_to_float : string -> option Q.

Lemma to_numeric_coerce (x : cell) :
  to_numeric str_to_float errors_coerce x = Ok (coerced str_to_float x).
Proof.
  destruct x as [s|]; simpl; [|reflexivity].
  destruct (str_to_float s); reflexivity.
Qed.

Lemma coerce_row_ok (r : record cell) :
  coerce_row str_to_float r = Ok (coerced_row str_to_float r).
Proof.
  unfold coerce_row, parse_FRCL, parse_DeltaEZ1.
  rewrite !to_numeric_coerce. reflexivity.
Qed.

Lemma mapM_coerce_row (t : list (record cell)) :
  mapM (coerce_row str_to_float) t = Ok (map (coerced_row str_to_float) t).
Proof.
  induction t as [|r t IH]; simpl; [reflexivity|].
  rewrite coerce_row_ok, IH. reflexivity.
Qed.

Lemma dtype_eqb_eq (a b : dtype) : dtype_eqb a b = true <-> a = b.
Proof. destruct a, b; simpl; split; congruence. Qed.

Lemma merged_data_ok (data : list raw_row) :
  dtype_of str_to_float (map Barcode_AC data)
  = dtype_of str_to_float (map Barcode_BC data) ->
  merged_data str_to_float data = Ok (joined str_to_float data).
Proof.
  intros H. unfold merged_data, merge, joined, key_dtype. cbv zeta.
  rewrite (proj2 (dtype_eqb_eq _ _) H). reflexivity.
Qed.

Lemma selected_data_ok (data : list raw_row) :
  well_typed str_to_float data = true ->
  selected_data str_to_float data = Ok (selected_rows str_to_float data).
Proof.
  unfold well_typed, text_column. intros H. apply andb_prop in H.
  destruct H as [Hk Hf]. apply dtype_eqb_eq in Hk.
  unfold selected_data. rewrite (merged_data_ok data Hk). simpl.
  unfold str_accessor.
  destruct (dtype_of str_to_float (map FRCL_text data)); [discriminate|].
  simpl. apply mapM_coerce_row.
Qed.

Lemma selected_data_raises (data : list raw_row) :
  raises (selected_data str_to_float data) = negb (well_typed str_to_float data).
Proof.
  destruct (well_typed str_to_float data) eqn:E.
  - rewrite (selected_data_ok data E). reflexivity.
  - unfold well_typed, text_column in E. unfold selected_data, merged_data, merge.
    cbv zeta.
    destruct (dtype_eqb _ _); simpl; [|reflexivity].
    unfold str_accessor.
    destruct (dtype_of str_to_float (map FRCL_text data)); simpl in *;
      [reflexivity|discriminate].
Qed.

Lemma selected_data_Ok_inv (data : list raw_row) (sel : list (record float)) :
  selected_data str_to_float data = Ok sel ->
  well_typed str_to_float data = true /\ sel = selected_rows str_to_float data.
Proof.
  intros H. pose proof (selected_data_raises data) as R. rewrite H in R.
  simpl in R. destruct (well_typed str_to_float data) eqn:E; [|discriminate].
  rewrite (selected_data_ok data E) in H. injection H as <-. auto.
Qed.

End Coercion.
(** ** Group keys *)

Lemma insert_key_In (q k : Q) (ks : list Q) :
  In k (insert_key q ks) -> k = q \/ In k ks.
Proof.
  induction ks as [|h ks IH]; simpl.
  - intros [H|[]]; auto.
  - destruct (q ?= h); simpl; intros H.
    + auto.
    + destruct H as [H|H]; auto.
    + destruct H as [H|H]; auto. destruct (IH H); auto.
Qed.

Lemma insert_key_sorted (q : Q) (ks : list Q) :
  StronglySorted Qlt ks -> StronglySorted Qlt (insert_key q ks).
Proof.
  induction ks as [|h ks IH]; simpl; intros Hs.
  - constructor; constructor.
  - inversion Hs as [|? ? Hs' Hall]; subst.
    destruct (q ?= h) eqn:E.
    + exact Hs.
    + apply Qlt_alt in E. constructor; [exact Hs|].
      constructor; [exact E|].
      eapply Forall_impl; [|exact Hall].
      intros a Ha. eapply Qlt_trans; eauto.
    + apply Qgt_alt in E. constructor; [auto|].
      apply Forall_forall. intros a Ha.
      destruct (insert_key_In _ _ _ Ha) as [->|Hin]; [exact E|].
      rewrite Forall_forall in Hall. auto.
Qed.

Lemma insert_key_has (q : Q) (ks : list Q) :
  exists k, In k (insert_key q ks) /\ k == q.
Proof.
  induction ks as [|h ks IH]; simpl.
  - exists q. split; [left; reflexivity|reflexivity].
  - destruct (q ?= h) eqn:E.
    + apply Qeq_alt in E. exists h. split; [left; reflexivity|].
      symmetry; exact E.
    + exists q. split; [left; reflexivity|reflexivity].
    + destruct IH as [k [Hk Hq]]. exists k. split; [right; exact Hk|exact Hq].
Qed.

Lemma insert_key_keeps (q k : Q) (ks : list Q) :
  In k ks -> In k (insert_key q ks).
Proof.
  induction ks as [|h ks IH]; simpl; [tauto|].
  intros H. destruct (q ?= h); simpl; tauto.
Qed.

Lemma group_keys_sorted (col : list float) :
  StronglySorted Qlt (group_keys col).
Proof.
  unfold group_keys. induction (dropna col) as [|q l IH]; simpl.
  - constructor.
  - apply insert_key_sorted, IH.
Qed.

Lemma group_keys_In (col : list float) (k : Q) :
  In k (group_keys col) -> In (Num k) col.
Proof.
  unfold group_keys. induction col as [|x col IH]; simpl; [tauto|].
  destruct x as [|q]; simpl.
  - auto.
  - intros H. destruct (insert_key_In _ _ _ H) as [->|Hin]; auto.
Qed.

Lemma group_keys_complete (col : list float) (q : Q) :
  In (Num q) col -> exists k, In k (group_keys col) /\ k == q.
Proof.
  unfold group_keys. induction col as [|x col IH]; simpl; [tauto|].
  intros [->|Hin]; simpl.
  - apply insert_key_has.
  - destruct (IH Hin) as [k [Hk Hq]]. destruct x as [|q']; simpl.
    + exists k; auto.
    + exists k. split; [apply insert_key_keeps; exact Hk|exact Hq].
Qed.

Lemma in_range_spec (r : record float) :
  in_range r = true <-> exists q, DeltaEZ1 r = Num q /\ -3 <= q /\ q <= 3.
Proof.
  unfold in_range, ge_const, le_const. destruct (DeltaEZ1 r) as [|q].
  - simpl. split; [discriminate|]. intros [q [H _]]. discriminate.
  - rewrite andb_true_iff, !Qle_bool_iff. split.
    + intros [H1 H2]. exists q. auto.
    + intros [q' [H [H1 H2]]]. inversion H; subst. auto.
Qed.

Lemma grouped_keys (t : list (record float)) :
  map group_DeltaEZ1 (grouped t) = group_keys (map DeltaEZ1 t).
Proof.
  unfold grouped. rewrite map_map. simpl. apply map_id.
Qed.

(** ** What a successful run returns *)

Lemma fitted_values_length (x y : list Q) :
  List.length (fitted_values x y) = List.length x.
Proof.
  unfold fitted_values.
  destruct (Qeq_bool _ 0); apply length_map.
Qed.

Lemma OLS_fit_predict_length (x : list Q) (y pred : list float) :
  OLS_fit_predict x y = Ok pred -> List.length pred = List.length x.
Proof.
  unfold OLS_fit_predict. destruct x as [|a x]; [discriminate|].
  remember (a :: x) as xs eqn:Exs. clear Exs.
  destruct (existsb isna y); intros H; injection H as <-.
  - apply length_map.
  - rewrite length_map. apply fitted_values_length.
Qed.

Lemma map_fst_combine {A B : Type} (l : list A) (l' : list B) :
  List.length l' = List.length l -> map fst (combine l l') = l.
Proof.
  revert l'. induction l as [|a l IH]; intros [|b l'] H; simpl in *;
    try discriminate; [reflexivity|].
  f_equal. apply IH. lia.
Qed.

Lemma run_ok_inv (str_to_float : string -> option Q) (observed : bool)
      (fit : list Q -> list float -> result (list float))
      (data : list raw_row) (out : analysis) :
  run str_to_float observed fit data = Ok out ->
  let filtered := filtered_data (selected_rows str_to_float data) in
  well_typed str_to_float data = true /\
  out_selected out = selected_rows str_to_float data /\
  (exists pred, OLS_Prediction fit (grouped filtered) = Ok pred /\
                out_grouped out = combine (grouped filtered) pred) /\
  out_range_count out = range_count_df observed filtered.
Proof.
  unfold run.
  destruct (selected_data str_to_float data) as [sel|e] eqn:Es; [|discriminate].
  apply selected_data_Ok_inv in Es. destruct Es as [Hw ->]. simpl.
  destruct (OLS_Prediction fit _) as [pred|e] eqn:E; simpl; [|discriminate].
  intros H. injection H as <-. simpl.
  split; [exact Hw|]. split; [reflexivity|]. split; [|reflexivity].
  exists pred. split; reflexivity.
Qed.

Lemma run_reference_inv (str_to_float : string -> option Q) (observed : bool)
      (data : list raw_row) (out : analysis) :
  run str_to_float observed OLS_fit_predict data = Ok out ->
  let filtered := filtered_data (selected_rows str_to_float data) in
  out_selected out = selected_rows str_to_float data /\
  map fst (out_grouped out) = grouped filtered /\
  out_range_count out = range_count_df observed filtered.
Proof.
  intros H. apply run_ok_inv in H.
  destruct H as [_ [Hs [[pred [Hp Hg]] Hr]]].
  split; [exact Hs|]. split; [|exact Hr].
  rewrite Hg. apply map_fst_combine.
  unfold OLS_Prediction in Hp. apply OLS_fit_predict_length in Hp.
  rewrite Hp, !length_map. reflexivity.
Qed.

Lemma Forall_combine_fst {A B : Type} (P : A -> Prop) (l : list A) (l' : list B) :
  Forall P l -> Forall (fun a => P (fst a)) (combine l l').
Proof.
  intros H. apply Forall_forall. intros [a b] Hab.
  apply in_combine_l in Hab. rewrite Forall_forall in H. apply H. exact Hab.
Qed.

Lemma StronglySorted_combine_fst {A B : Type} (f : A -> Q) (l : list A)
      (l' : list B) :
  StronglySorted Qlt (map f l) ->
  StronglySorted Qlt (map (fun a => f (fst a)) (combine l l')).
Proof.
  revert l'. induction l as [|a l IH]; intros [|b l'] H; simpl;
    try constructor.
  - apply IH. inversion H; assumption.
  - inversion H as [|? ? _ Hall]; subst.
    apply Forall_forall. intros q Hq. apply in_map_iff in Hq.
    destruct Hq as [[a' b'] [<- Hin]]. apply in_combine_l in Hin.
    rewrite Forall_forall in Hall. apply Hall. apply in_map. exact Hin.
Qed.

(** ** The aggregate table *)

(** C3. Every row of the aggregate table carries a DeltaEZ1 value that is
    the successfully parsed value of some selected record and lies in the
    closed interval from -3 to 3; this holds for the table computed from any
    selected table, and so for the aggregate table of every run that
    returns one. *)
Theorem grouped_DeltaEZ1_in_range :
  (forall selected : list (record float),
     Forall (fun a =>
               -3 <= group_DeltaEZ1 a /\ group_DeltaEZ1 a <= 3 /\
               exists r, In r selected /\ DeltaEZ1 r = Num (group_DeltaEZ1 a))
            (grouped (filtered_data selected))) /\
  (forall (str_to_float : string -> option Q) (observed : bool)
          (fit : list Q -> list float -> result (list float))
          (data : list raw_row),
     match run str_to_float observed fit data with
     | Ok out =>
         Forall (fun a => -3 <= group_DeltaEZ1 (fst a) /\ group_DeltaEZ1 (fst a) <= 3)
                (out_grouped out)
     | Raise _ => True
     end).
Proof.
  assert (H : forall selected : list (record float),
     Forall (fun a =>
               -3 <= group_DeltaEZ1 a /\ group_DeltaEZ1 a <= 3 /\
               exists r, In r selected /\ DeltaEZ1 r = Num (group_DeltaEZ1 a))
            (grouped (filtered_data selected))).
  { intros selected. apply Forall_forall. intros a Ha.
    assert (Hk : In (group_DeltaEZ1 a) (map group_DeltaEZ1 (grouped (filtered_data selected))))
      by (apply in_map; exact Ha).
    rewrite grouped_keys in Hk. apply group_keys_In in Hk.
    apply in_map_iff in Hk. destruct Hk as [r [Hr Hin]].
    unfold filtered_data in Hin. apply filter_In in Hin.
    destruct Hin as [Hsel Hrange].
    apply in_range_spec in Hrange. destruct Hrange as [q [Hq [Hlo Hhi]]].
    rewrite Hq in Hr. inversion Hr; subst.
    split; [exact Hlo|]. split; [exact Hhi|].
    exists r. split; [exact Hsel|exact Hq]. }
  split; [exact H|].
  intros str_to_float observed fit data.
  destruct (run str_to_float observed fit data) as [out|e] eqn:E; [|exact I].
  apply run_ok_inv in E. destruct E as [_ [_ [[pred [_ Hg]] _]]].
  rewrite Hg.
  apply (Forall_combine_fst
           (fun a => -3 <= group_DeltaEZ1 a /\ group_DeltaEZ1 a <= 3)).
  specialize (H (selected_rows str_to_float data)).
  eapply Forall_impl; [|exact H].
  simpl. intros a [H1 [H2 _]]. split; assumption.
Qed.

(** C9. The rows of the aggregate table come in strictly ascending order of
    their DeltaEZ1 value. *)
Theorem grouped_ascending :
  (forall t : list (record float),
     StronglySorted Qlt (map group_DeltaEZ1 (grouped t))) /\
  (forall (str_to_float : string -> option Q) (observed : bool)
          (fit : list Q -> list float -> result (list float))
          (data : list raw_row),
     match run str_to_float observed fit data with
     | Ok out =>
         StronglySorted Qlt (map (fun a => group_DeltaEZ1 (fst a)) (out_grouped out))
     | Raise _ => True
     end).
Proof.
  split.
  - intros t. rewrite grouped_keys. apply group_keys_sorted.
  - intros str_to_float observed fit data.
    destruct (run str_to_float observed fit data) as [out|e] eqn:E; [|exact I].
    apply run_ok_inv in E. destruct E as [_ [_ [[pred [_ Hg]] _]]].
    rewrite Hg. apply (StronglySorted_combine_fst group_DeltaEZ1).
    rewrite grouped_keys. apply group_keys_sorted.
Qed.


(** ** The self-join *)


Section JoinFacts.

Variable str_to_float : string -> option Q.
Variable d : dtype.







End JoinFacts.





(** ** Cleaning *)









(** ** Bin edges and [pd.cut] *)

Lemma deltaez1_bins_edges : deltaez1_bins = map bin_edge (seq 0 13).
Proof. reflexivity. Qed.

Lemma bin_edge_mono (i j : nat) : (i <= j)%nat -> bin_edge i <= bin_edge j.
Proof.
  intros H. unfold bin_edge.
  assert (inject_Z (Z.of_nat i) <= inject_Z (Z.of_nat j))
    by (rewrite <- Zle_Qle; lia).
  set (a := inject_Z (Z.of_nat i)) in *. set (b := inject_Z (Z.of_nat j)) in *.
  clearbody a b. lra.
Qed.

Lemma bin_edge_S (i : nat) : bin_edge (i + 1) == bin_edge i + (1 # 2).
Proof.
  unfold bin_edge. rewrite Nat2Z.inj_add, inject_Z_plus. simpl (Z.of_nat 1).
  change (inject_Z 1) with 1. ring.
Qed.

Lemma searchsorted_edges (x : Q) (k n : nat) :
  (forall i, (i < k)%nat -> bin_edge i <= x) ->
  (forall i, (k <= i < n)%nat -> x < bin_edge i) ->
  searchsorted_right (map bin_edge (seq 0 n)) x = Nat.min k n.
Proof.
  intros Hlo Hhi. unfold searchsorted_right.
  induction n as [|n IH]; [rewrite Nat.min_0_r; reflexivity|].
  rewrite seq_S, map_app, filter_app, length_app, IH
    by (intros i Hi; apply Hhi; lia).
  simpl.
  destruct (Qle_bool (bin_edge n) x) eqn:E; simpl.
  - apply Qle_bool_iff in E.
    destruct (Nat.lt_ge_cases n k) as [Hn|Hn]; [lia|].
    assert (x < bin_edge n) by (apply Hhi; lia). lra.
  - destruct (Nat.lt_ge_cases n k) as [Hn|Hn]; [|lia].
    specialize (Hlo n Hn). apply Qle_bool_iff in Hlo. congruence.
Qed.

Lemma cut_in_bucket (x : Q) (i : nat) :
  (i < 12)%nat -> bin_edge i <= x -> x < bin_edge (i + 1) ->
  cut deltaez1_bins (Num x) = Some i.
Proof.
  intros Hi Hlo Hhi. unfold cut.
  rewrite deltaez1_bins_edges, (searchsorted_edges x (i + 1) 13).
  - rewrite length_map, length_seq.
    replace (Nat.min (i + 1) 13) with (S i) by lia.
    destruct (S i =? 13)%nat eqn:E; [apply Nat.eqb_eq in E; lia|].
    simpl. f_equal. lia.
  - intros j Hj. apply Qle_trans with (bin_edge i); [|exact Hlo].
    apply bin_edge_mono. lia.
  - intros j Hj. apply Qlt_le_trans with (bin_edge (i + 1)); [exact Hhi|].
    apply bin_edge_mono. lia.
Qed.

Lemma cut_below (x : Q) : x < -3 -> cut deltaez1_bins (Num x) = None.
Proof.
  intros H. unfold cut.
  rewrite deltaez1_bins_edges, (searchsorted_edges x 0 13); [reflexivity| |].
  - intros i Hi. lia.
  - intros i _. apply Qlt_le_trans with (bin_edge 0).
    + assert (bin_edge 0 == -3) by reflexivity. lra.
    + apply bin_edge_mono. lia.
Qed.

Lemma cut_above (x : Q) : 3 <= x -> cut deltaez1_bins (Num x) = None.
Proof.
  intros H. unfold cut.
  rewrite deltaez1_bins_edges, (searchsorted_edges x 13 13); [reflexivity| |].
  - intros i Hi. apply Qle_trans with (bin_edge 12).
    + apply bin_edge_mono. lia.
    + assert (bin_edge 12 == 3) by reflexivity. lra.
  - intros i Hi. lia.
Qed.

Lemma bin_edge_floor (x : Q) :
  -3 <= x -> x < 3 ->
  let i := Z.to_nat (Qfloor ((x + 3) * 2)) in
  (i < 12)%nat /\ bin_edge i <= x /\ x < bin_edge (i + 1).
Proof.
  intros Hlo Hhi. set (y := (x + 3) * 2). set (z := Qfloor y).
  assert (Hz1 : inject_Z z <= y) by apply Qfloor_le.
  assert (Hz2 : y < inject_Z (z + 1)) by apply Qlt_floor.
  rewrite inject_Z_plus in Hz2. change (inject_Z 1) with 1 in Hz2.
  assert (Hy : y == (x + 3) * 2) by reflexivity.
  assert (H0 : (0 <= z)%Z).
  { apply Z.lt_succ_r. rewrite Zlt_Qlt. unfold Z.succ.
    rewrite inject_Z_plus. change (inject_Z 1) with 1. change (inject_Z 0) with 0.
    clearbody y. lra. }
  assert (H12 : (z < 12)%Z).
  { rewrite Zlt_Qlt. change (inject_Z 12) with 12. clearbody y. lra. }
  simpl. split; [lia|].
  assert (E : inject_Z (Z.of_nat (Z.to_nat z)) = inject_Z z)
    by (rewrite Z2Nat.id by exact H0; reflexivity).
  split.
  - unfold bin_edge. rewrite E. clearbody y z. lra.
  - rewrite bin_edge_S. unfold bin_edge. rewrite E. clearbody y z. lra.
Qed.

Lemma cut_Some_iff (x : Q) (i : nat) :
  cut deltaez1_bins (Num x) = Some i
  <-> (i < 12)%nat /\ bin_edge i <= x /\ x < bin_edge (i + 1).
Proof.
  split.
  - intros H. destruct (Qlt_le_dec x (-3)) as [Hlo|Hlo].
    { rewrite cut_below in H by exact Hlo. discriminate. }
    destruct (Qlt_le_dec x 3) as [Hhi|Hhi].
    + destruct (bin_edge_floor x Hlo Hhi) as [Hi [H1 H2]].
      rewrite (cut_in_bucket x _ Hi H1 H2) in H.
      injection H as <-. auto.
    + rewrite cut_above in H by exact Hhi. discriminate.
  - intros [Hi [H1 H2]]. apply cut_in_bucket; assumption.
Qed.

Lemma in_bucket_iff (i : nat) (r : record float) :
  in_bucket i r = true <-> DeltaEZ1_Range r = Some i.
Proof.
  unfold in_bucket. destruct (DeltaEZ1_Range r) as [j|].
  - rewrite Nat.eqb_eq. split; congruence.
  - split; discriminate.
Qed.

Lemma bucket_skip (i : nat) (r : record float) (t1 t2 : list (record float)) :
  DeltaEZ1_Range r = None ->
  bucket i (t1 ++ r :: t2) = bucket i (t1 ++ t2).
Proof.
  intros H. unfold bucket. rewrite !filter_app. simpl.
  unfold in_bucket at 2. rewrite H. reflexivity.
Qed.

Lemma DeltaEZ1_Range_iff (r : record float) (i : nat) :
  DeltaEZ1_Range r = Some i
  <-> exists q, DeltaEZ1 r = Num q /\ (i < 12)%nat /\
                bin_edge i <= q /\ q < bin_edge (i + 1).
Proof.
  unfold DeltaEZ1_Range. destruct (DeltaEZ1 r) as [|q].
  - simpl. split; [discriminate|]. intros [q [H _]]. discriminate.
  - rewrite cut_Some_iff. split.
    + intros H. exists q. tauto.
    + intros [q' [E H]]. injection E as <-. exact H.
Qed.

(** C4. The bin edges are the 13 values from -3 to 3 in steps of one half,
    which bound 12 buckets, each labelled with its two edges.  A record is
    assigned to bucket [i], and counted there, exactly when its DeltaEZ1 is
    at least the lower edge of the bucket and strictly below its upper
    edge; so a record with DeltaEZ1 in the half-open range from -3 to 3 is
    in exactly one bucket, the one whose edges enclose it.  A record with
    DeltaEZ1 equal to 3 is in no bucket, and the Range Count table is the
    same with or without it. *)
Theorem cut_left_closed_right_open :
  (deltaez1_bins = map bin_edge (seq 0 13) /\
   Forall2 Qeq deltaez1_bins
     [-3; -2.5; -2; -1.5; -1; -0.5; 0; 0.5; 1; 1.5; 2; 2.5; 3] /\
   List.length bin_labels = 12%nat /\
   bin_labels
   = map (fun i => (format_float (bin_edge i) ++ " to "
                    ++ format_float (bin_edge (i + 1)))%string)
         (seq 0 12)) /\
  (forall (x : Q) (i : nat),
     cut deltaez1_bins (Num x) = Some i
     <-> (i < 12)%nat /\ bin_edge i <= x /\ x < bin_edge (i + 1)) /\
  (forall (r : record float) (i : nat),
     (DeltaEZ1_Range r = Some i
      <-> exists q, DeltaEZ1 r = Num q /\ (i < 12)%nat /\
                    bin_edge i <= q /\ q < bin_edge (i + 1)) /\
     (in_bucket i r = true
      <-> exists q, DeltaEZ1 r = Num q /\ (i < 12)%nat /\
                    bin_edge i <= q /\ q < bin_edge (i + 1))) /\
  (forall (t : list (record float)) (i : nat) (r : record float),
     In r (bucket i t)
     <-> In r t /\ exists q, DeltaEZ1 r = Num q /\ (i < 12)%nat /\
                             bin_edge i <= q /\ q < bin_edge (i + 1)) /\
  (forall (r : record float) (q : Q),
     DeltaEZ1 r = Num q -> -3 <= q -> q < 3 ->
     exists i, (i < 12)%nat /\ bin_edge i <= q /\ q < bin_edge (i + 1) /\
               forall j, in_bucket j r = true <-> j = i) /\
  (forall (r : record float) (q : Q),
     DeltaEZ1 r = Num q -> q == 3 ->
     (forall j, in_bucket j r = false) /\
     forall (observed : bool) (t1 t2 : list (record float)),
       range_count_df observed (t1 ++ r :: t2)
       = range_count_df observed (t1 ++ t2)).
Proof.
  split; [|split; [|split; [|split; [|split]]]].
  - split; [reflexivity|]. split; [|split; reflexivity].
    repeat (constructor; [reflexivity|]). constructor.
  - exact cut_Some_iff.
  - intros r i. split; [apply DeltaEZ1_Range_iff|].
    rewrite in_bucket_iff. apply DeltaEZ1_Range_iff.
  - intros t i r. unfold bucket. rewrite filter_In, in_bucket_iff.
    rewrite DeltaEZ1_Range_iff. tauto.
  - intros r q Hq Hlo Hhi.
    destruct (bin_edge_floor q Hlo Hhi) as [Hi [H1 H2]].
    exists (Z.to_nat (Qfloor ((q + 3) * 2))).
    split; [exact Hi|]. split; [exact H1|]. split; [exact H2|].
    intros j. rewrite in_bucket_iff. unfold DeltaEZ1_Range. rewrite Hq.
    rewrite (cut_in_bucket q _ Hi H1 H2). split; congruence.
  - intros r q Hq H3.
    assert (Hnone : DeltaEZ1_Range r = None).
    { unfold DeltaEZ1_Range. rewrite Hq. apply cut_above. lra. }
    split.
    + intros j. unfold in_bucket. rewrite Hnone. reflexivity.
    + intros observed t1 t2. unfold range_count_df.
      rewrite (filter_ext (listed observed (t1 ++ r :: t2))
                          (listed observed (t1 ++ t2)))
        by (intros i; unfold listed; rewrite bucket_skip by exact Hnone;
            reflexivity).
      apply map_ext. intros i.
      rewrite bucket_skip by exact Hnone. reflexivity.
Qed.

(** C4 on two records: one measured at 0.2, which is in the bucket from
    0.0 to 0.5 and in no other, and one measured at exactly 3, which is in
    no bucket. *)
Lemma cut_sample_records :
  in_bucket 6 (mk_record None None (Some "T1") NaN (Num 0.2)) = true /\
  nth 6 bin_labels "" = "0.0 to 0.5" /\
  Forall (fun j => j <> 6%nat ->
            in_bucket j (mk_record None None (Some "T1") NaN (Num 0.2)) = false)
         (seq 0 12) /\
  Forall (fun j => in_bucket j (mk_record None None (Some "T3") NaN (Num 3)) = false)
         (seq 0 12).
Proof.
  split; [|split; [reflexivity|split]].
  - apply (proj2 (proj1 (proj2 (proj2 cut_left_closed_right_open))
                    (mk_record None None (Some "T1") NaN (Num 0.2)) 6%nat)).
    exists 0.2. split; [reflexivity|]. split; [lia|].
    split; [unfold Qle; simpl; lia|unfold Qlt; simpl; lia].
  - apply Forall_forall. intros j _ Hj.
    destruct (in_bucket j (mk_record None None (Some "T1") NaN (Num 0.2))) eqn:E;
      [|reflexivity].
    apply (proj2 (proj1 (proj2 (proj2 cut_left_closed_right_open)) _ j)) in E.
    destruct E as [q [Hq [Hj12 [H1 H2]]]]. injection Hq as <-. exfalso.
    assert (H6 : bin_edge 6 <= 0.2 /\ 0.2 < bin_edge (6 + 1))
      by (split; [unfold Qle; simpl; lia|unfold Qlt; simpl; lia]).
    destruct H6 as [H61 H62].
    destruct (Nat.lt_ge_cases j 6) as [Hlt|Hge].
    + pose proof (bin_edge_mono (j + 1) 6 ltac:(lia)). lra.
    + pose proof (bin_edge_mono (6 + 1) j ltac:(lia)). lra.
  - apply Forall_forall. intros j _. revert j.
    apply (proj2 (proj2 (proj2 (proj2 (proj2 cut_left_closed_right_open))))
             (mk_record None None (Some "T3") NaN (Num 3)) 3);
      reflexivity.
Defined.

(** ** The Range Count table *)

Lemma nth_error_map_seq {A : Type} (f : nat -> A) (n i : nat) :
  (i < n)%nat -> nth_error (map f (seq 0 n)) i = Some (f i).
Proof.
  intros H. apply map_nth_error.
  rewrite (nth_error_nth' _ 0%nat) by (rewrite length_seq; exact H).
  rewrite seq_nth by exact H. reflexivity.
Qed.

Lemma bucket_nil (i : nat) (t : list (record float)) :
  (forall r, In r t -> in_bucket i r = false) -> bucket i t = [].
Proof.
  intros H. unfold bucket. induction t as [|r t IH]; simpl; [reflexivity|].
  rewrite (H r) by (left; reflexivity). apply IH.
  intros r' Hr'. apply H. right. exact Hr'.
Qed.

Lemma listed_all (t : list (record float)) (l : list nat) :
  filter (listed false t) l = l.
Proof. induction l as [|i l IH]; simpl; [reflexivity|]. rewrite IH. reflexivity. Qed.

Lemma is_empty_false_iff {A : Type} (l : list A) : is_empty l = false <-> l <> [].
Proof. destruct l; simpl; split; congruence. Qed.

Lemma range_count_df_In (observed : bool) (t : list (record float))
      (row : range_row) :
  In row (range_count_df observed t)
  <-> exists i, (i < 12)%nat /\ (observed = true -> bucket i t <> []) /\
        row = {| Range_label := nth i bin_labels "";
                 Range_tires := nunique (map Barcode (bucket i t)) |}.
Proof.
  unfold range_count_df. change (List.length bin_labels) with 12%nat.
  rewrite in_map_iff. split.
  - intros [i [<- Hi]]. apply filter_In in Hi. destruct Hi as [Hi Hl].
    apply in_seq in Hi. exists i. split; [lia|]. split; [|reflexivity].
    intros ->. unfold listed in Hl. simpl in Hl.
    apply is_empty_false_iff. destruct (is_empty (bucket i t)); [discriminate|reflexivity].
  - intros [i [Hi [Hl ->]]]. exists i. split; [reflexivity|].
    apply filter_In. split; [apply in_seq; lia|].
    unfold listed. destruct observed; simpl; [|reflexivity].
    rewrite (proj2 (is_empty_false_iff _) (Hl eq_refl)). reflexivity.
Qed.

(** C5, as the code has it. The Range Count table has a row, with its
    distinct-barcode count, for every bucket that holds a filtered record,
    and its rows are rows of buckets.  When the grouping runs with
    [observed=False] the table has the 12 labels in order, and a bucket
    without a record is listed with a count of zero; when it runs with
    [observed=True] only the buckets that hold a record are listed.  The
    script does not choose: it leaves [observed] to the library. *)
Theorem range_count_lists_every_bucket (t : list (record float)) :
  (forall (observed : bool) (row : range_row),
     In row (range_count_df observed t)
     <-> exists i, (i < 12)%nat /\ (observed = true -> bucket i t <> []) /\
           row = {| Range_label := nth i bin_labels "";
                    Range_tires := nunique (map Barcode (bucket i t)) |}) /\
  (map Range_label (range_count_df false t)
   = ["-3.0 to -2.5"; "-2.5 to -2.0"; "-2.0 to -1.5"; "-1.5 to -1.0";
      "-1.0 to -0.5"; "-0.5 to 0.0"; "0.0 to 0.5"; "0.5 to 1.0";
      "1.0 to 1.5"; "1.5 to 2.0"; "2.0 to 2.5"; "2.5 to 3.0"] /\
   List.length (range_count_df false t) = 12%nat /\
   forall i, (i < 12)%nat ->
     exists row, nth_error (range_count_df false t) i = Some row /\
       Range_tires row = nunique (map Barcode (bucket i t)) /\
       ((forall r, In r t -> in_bucket i r = false) -> Range_tires row = 0%nat)) /\
  (forall i, (i < 12)%nat ->
     (forall r, In r t -> in_bucket i r = false) ->
     forall row, In row (range_count_df true t) ->
                 Range_label row <> nth i bin_labels "").
Proof.
  split; [intros observed row; apply range_count_df_In|]. split.
  - unfold range_count_df. rewrite listed_all. split; [|split].
    + rewrite map_map. reflexivity.
    + rewrite length_map, length_seq. reflexivity.
    + intros i Hi. change (List.length bin_labels) with 12%nat.
      rewrite nth_error_map_seq by exact Hi.
      eexists. split; [reflexivity|]. simpl. split; [reflexivity|].
      intros H. rewrite (bucket_nil i t H). reflexivity.
  - intros i Hi Hempty row Hrow C.
    apply range_count_df_In in Hrow. destruct Hrow as [j [Hj [Hne ->]]].
    simpl in C.
    assert (E : j = i).
    { assert (Hnd : NoDup bin_labels).
      { repeat (constructor; [simpl; intuition discriminate|]). constructor. }
      apply (proj1 (NoDup_nth bin_labels "") Hnd); try exact C;
        change (List.length bin_labels) with 12%nat; lia. }
    subst j. apply (Hne eq_refl). apply bucket_nil. exact Hempty.
Qed.

(** C5 as stated fails: when the grouping runs with [observed=True], the
    Range Count table of the upload [one_tire] has a single row, the bucket
    of its one record; the eleven buckets without a record are not
    listed. *)
Lemma empty_buckets_not_listed :
  exists out,
    run decimal_literal true OLS_fit_predict one_tire = Ok out /\
    out_range_count out = [ {| Range_label := "0.0 to 0.5"; Range_tires := 1 |} ].
Proof. eexists. split; vm_compute; reflexivity. Qed.

(** C5 on the filtered table of [one_tire]: under [observed=False] the
    first bucket is empty and is listed with a count of zero. *)
Lemma range_count_empty_bucket :
  exists row,
    nth_error (range_count_df false
                 (filtered_data (selected_rows decimal_literal one_tire))) 0
    = Some row /\ Range_tires row = 0%nat.
Proof.
  destruct (proj2 (proj2 (proj1 (proj2 (range_count_lists_every_bucket
              (filtered_data (selected_rows decimal_literal one_tire))))))
              0%nat) as [row [Hrow [_ Hzero]]]; [lia|].
  exists row. split; [exact Hrow|]. apply Hzero.
  intros r [<-|[]]. reflexivity.
Defined.

Lemma list_sum_map_filter {A : Type} (f : A -> nat) (p : A -> bool) (l : list A) :
  (forall a, In a l -> p a = false -> f a = 0%nat) ->
  list_sum (map f (filter p l)) = list_sum (map f l).
Proof.
  induction l as [|a l IH]; simpl; intros H; [reflexivity|].
  assert (IH' : list_sum (map f (filter p l)) = list_sum (map f l))
    by (apply IH; intros b Hb; apply H; right; exact Hb).
  destruct (p a) eqn:E; simpl; [rewrite IH'; reflexivity|].
  rewrite (H a (or_introl eq_refl) E). exact IH'.
Qed.

Lemma total_tires_sum (observed : bool) (t : list (record float)) :
  total_tires (range_count_df observed t)
  = list_sum (map (fun i => nunique (map Barcode (bucket i t))) (seq 0 12)).
Proof.
  unfold total_tires, range_count_df. rewrite map_map. cbn [Range_tires].
  change (List.length bin_labels) with 12%nat.
  apply list_sum_map_filter. intros i _ Hl. unfold listed in Hl.
  apply orb_false_elim in Hl. destruct Hl as [_ Hl].
  destruct (bucket i t); [reflexivity|discriminate].
Qed.

Lemma list_sum_map_add {A : Type} (f g : A -> nat) (l : list A) :
  list_sum (map (fun a => f a + g a)%nat l)
  = (list_sum (map f l) + list_sum (map g l))%nat.
Proof. induction l as [|a l IH]; simpl; lia. Qed.

Lemma list_sum_map_le {A : Type} (f g : A -> nat) (l : list A) :
  (forall a, In a l -> (f a <= g a)%nat) ->
  (list_sum (map f l) <= list_sum (map g l))%nat.
Proof.
  induction l as [|a l IH]; simpl; intros H; [lia|].
  assert (f a <= g a)%nat by (apply H; left; reflexivity).
  assert (list_sum (map f l) <= list_sum (map g l))%nat
    by (apply IH; intros b Hb; apply H; right; exact Hb).
  lia.
Qed.

Lemma list_sum_map_ext_in {A : Type} (f g : A -> nat) (l : list A) :
  (forall a, In a l -> f a = g a) ->
  list_sum (map f l) = list_sum (map g l).
Proof. intros H. f_equal. apply map_ext_in. exact H. Qed.

Lemma indicator_sum (j n : nat) :
  list_sum (map (fun i => if (j =? i)%nat then 1 else 0)%nat (seq 0 n))
  = if (j <? n)%nat then 1%nat else 0%nat.
Proof.
  induction n as [|n IH]; [reflexivity|].
  rewrite seq_S, map_app, list_sum_app, IH. simpl.
  destruct (Nat.eqb_spec j n) as [->|N].
  - rewrite Nat.ltb_irrefl.
    destruct (Nat.ltb_spec n (S n)); lia.
  - destruct (Nat.ltb_spec j n), (Nat.ltb_spec j (S n)); lia.
Qed.

Lemma DeltaEZ1_Range_lt (r : record float) (j : nat) :
  DeltaEZ1_Range r = Some j -> (j < 12)%nat.
Proof.
  unfold DeltaEZ1_Range. destruct (DeltaEZ1 r) as [|q]; [discriminate|].
  intros H. apply cut_Some_iff in H. tauto.
Qed.

Lemma bucket_lengths (t : list (record float)) :
  list_sum (map (fun i => List.length (bucket i t)) (seq 0 12))
  = List.length (filter assigned t).
Proof.
  induction t as [|r t IH]; [reflexivity|].
  rewrite (list_sum_map_ext_in _
             (fun i => (if in_bucket i r then 1 else 0)
                       + List.length (bucket i t))%nat).
  - rewrite list_sum_map_add, IH. simpl filter.
    unfold assigned at 2, in_bucket.
    destruct (DeltaEZ1_Range r) as [j|] eqn:E.
    + rewrite indicator_sum. apply DeltaEZ1_Range_lt in E.
      destruct (Nat.ltb_spec j 12); [reflexivity|lia].
    + simpl. reflexivity.
  - intros i _. unfold bucket. simpl.
    destruct (in_bucket i r); simpl; reflexivity.
Qed.

Lemma assigned_below_3 (r : record float) :
  in_range r = true -> assigned r = below_3 r.
Proof.
  intros H. apply in_range_spec in H. destruct H as [q [Hq [Hlo Hhi]]].
  unfold assigned, below_3, DeltaEZ1_Range. rewrite Hq.
  destruct (Qle_bool 3 q) eqn:E.
  - apply Qle_bool_iff in E. rewrite cut_above by exact E. reflexivity.
  - assert (H3 : q < 3).
    { apply Qnot_le_lt. intros C. apply Qle_bool_iff in C. congruence. }
    destruct (bin_edge_floor q Hlo H3) as [Hi [H1 H2]].
    rewrite (cut_in_bucket q _ Hi H1 H2). reflexivity.
Qed.

Lemma filtered_assigned (selected : list (record float)) :
  filter assigned (filtered_data selected)
  = filter below_3 (filtered_data selected).
Proof.
  apply filter_ext_in. intros r Hr. apply assigned_below_3.
  unfold filtered_data in Hr. apply filter_In in Hr. tauto.
Qed.

Lemma nunique_le (l : list cell) : (nunique l <= List.length l)%nat.
Proof.
  unfold nunique.
  apply Nat.le_trans with (List.length (present l)).
  - apply NoDup_incl_length; [apply NoDup_nodup|].
    intros a Ha. apply nodup_In in Ha. exact Ha.
  - induction l as [|[a|] l IH]; simpl; lia.
Qed.

Lemma present_In {A : Type} (a : A) (l : list (option A)) :
  In a (present l) -> In (Some a) l.
Proof.
  induction l as [|[b|] l IH]; simpl; [tauto| |auto].
  intros [->|H]; auto.
Qed.

Lemma nunique_distinct (l : list cell) :
  NoDup l -> ~ In None l -> nunique l = List.length l.
Proof.
  intros Hnd Hnone. unfold nunique.
  assert (H : NoDup (present l) /\ List.length (present l) = List.length l).
  { induction l as [|[a|] l IH]; simpl.
    - split; [constructor|reflexivity].
    - apply NoDup_cons_iff in Hnd. destruct Hnd as [Hni Hnd].
      destruct (IH Hnd) as [IH1 IH2]; [simpl in Hnone; tauto|].
      split; [|lia]. constructor; [|exact IH1].
      intros C. apply Hni. apply present_In. exact C.
    - exfalso. apply Hnone. left. reflexivity. }
  destruct H as [H1 H2]. rewrite nodup_fixed_point by exact H1. exact H2.
Qed.

Lemma bucket_of_assigned (i : nat) (t : list (record float)) :
  bucket i (filter assigned t) = bucket i t.
Proof.
  unfold bucket. induction t as [|r t IH]; simpl; [reflexivity|].
  unfold assigned at 1, in_bucket at 2.
  destruct (DeltaEZ1_Range r) as [j|] eqn:E; simpl.
  - unfold in_bucket at 1. rewrite E, IH. reflexivity.
  - exact IH.
Qed.

Lemma NoDup_map_filter {A B : Type} (g : A -> B) (p : A -> bool) (l : list A) :
  NoDup (map g l) -> NoDup (map g (filter p l)).
Proof.
  induction l as [|a l IH]; simpl; intros H; [constructor|].
  apply NoDup_cons_iff in H. destruct H as [Hni Hnd].
  destruct (p a); simpl; [|auto].
  constructor; [|auto].
  intros C. apply Hni. apply in_map_iff in C. destruct C as [x [Hx Hin]].
  apply in_map_iff. exists x. split; [exact Hx|].
  apply filter_In in Hin. tauto.
Qed.

(** C2, as the code has it. The tire counts of the 12 buckets add up to at
    most the number of filtered records with DeltaEZ1 below 3, because a
    bucket counts distinct barcodes and not records; the two numbers agree
    when those records carry pairwise distinct barcodes, none missing. *)
Theorem total_tires_at_most_records (observed : bool)
        (selected : list (record float)) :
  let filtered := filtered_data selected in
  let counted := filter below_3 filtered in
  (total_tires (range_count_df observed filtered) <= List.length counted)%nat /\
  (NoDup (map Barcode counted) ->
   Forall (fun r => Barcode r <> None) counted ->
   total_tires (range_count_df observed filtered) = List.length counted).
Proof.
  intros filtered counted.
  assert (Hsum : total_tires (range_count_df observed filtered)
                 = list_sum (map (fun i => nunique (map Barcode (bucket i filtered)))
                                 (seq 0 12)))
    by apply total_tires_sum.
  assert (Hlen : list_sum (map (fun i => List.length (bucket i filtered)) (seq 0 12))
                 = List.length counted).
  { rewrite bucket_lengths. unfold counted, filtered.
    rewrite filtered_assigned. reflexivity. }
  split.
  - rewrite Hsum, <- Hlen. apply list_sum_map_le. intros i _.
    rewrite <- (length_map Barcode (bucket i filtered)). apply nunique_le.
  - intros Hnd Hsome. rewrite Hsum, <- Hlen.
    apply list_sum_map_ext_in. intros i _.
    rewrite <- (length_map Barcode (bucket i filtered)).
    rewrite <- (bucket_of_assigned i filtered).
    replace (filter assigned filtered) with counted
      by (symmetry; apply filtered_assigned).
    apply nunique_distinct.
    + unfold bucket. apply NoDup_map_filter. exact Hnd.
    + intros C. apply in_map_iff in C. destruct C as [r [Hr Hin]].
      unfold bucket in Hin. apply filter_In in Hin. destruct Hin as [Hin _].
      rewrite Forall_forall in Hsome. apply (Hsome r Hin). exact Hr.
Qed.

(** The equality of C2 on an upload whose tires are all distinct: two of
    the three filtered records lie below 3. *)
Lemma total_tires_three_tires :
  total_tires
    (range_count_df false (filtered_data (selected_rows decimal_literal three_tires)))
  = 2%nat /\
  total_tires
    (range_count_df true (filtered_data (selected_rows decimal_literal three_tires)))
  = 2%nat.
Proof.
  split.
  - apply (proj2 (total_tires_at_most_records false
                    (selected_rows decimal_literal three_tires))).
    + vm_compute. repeat constructor; simpl; intuition discriminate.
    + vm_compute. repeat constructor; discriminate.
  - apply (proj2 (total_tires_at_most_records true
                    (selected_rows decimal_literal three_tires))).
    + vm_compute. repeat constructor; simpl; intuition discriminate.
    + vm_compute. repeat constructor; discriminate.
Defined.

(** C2 as stated fails: with tire T1 measured twice inside one bucket, the
    buckets hold one tire in all while two filtered records lie below 3. *)
Lemma total_tires_not_record_count :
  (exists out : analysis,
     run decimal_literal false OLS_fit_predict measured_twice = Ok out /\
     total_tires (out_range_count out) = 1%nat /\
     List.length (filter below_3 (filtered_data (out_selected out))) = 2%nat) /\
  (exists out : analysis,
     run decimal_literal true OLS_fit_predict measured_twice = Ok out /\
     total_tires (out_range_count out) = 1%nat /\
     List.length (filter below_3 (filtered_data (out_selected out))) = 2%nat).
Proof.
  split; eexists; (split; [vm_compute; reflexivity|]); split; vm_compute; reflexivity.
Qed.

(** ** The regression step *)


Lemma run_raises (str_to_float : string -> option Q) (observed : bool)
      (fit : list Q -> list float -> result (list float)) (data : list raw_row) :
  raises (run str_to_float observed fit data) = true
  <-> well_typed str_to_float data = false \/
      raises (OLS_Prediction fit
                (grouped (filtered_data (selected_rows str_to_float data)))) = true.
Proof.
  unfold run. destruct (well_typed str_to_float data) eqn:W.
  - rewrite (selected_data_ok str_to_float data W). simpl.
    destruct (OLS_Prediction fit _); simpl; split; auto.
    intros [C|C]; discriminate.
  - pose proof (selected_data_raises str_to_float data) as R. rewrite W in R.
    destruct (selected_data str_to_float data); simpl in *; [discriminate|].
    split; auto.
Qed.






(** ** Rows without a partner *)




Section Partners.

Variable str_to_float : string -> option Q.




End Partners.



(** The condition on the column types is needed: added to [plain_FRCL], a
    row without a partner whose FRCL entry is no number makes FRCL a text
    column; with it the run returns tables, without it the accessor
    raises. *)
Example stray_row_decides_types :
  let stray := upload_row "Z8" "FM3" "2024-01-10" "n/a" "0.4" "Z9" in
  filter (matched decimal_literal (plain_FRCL ++ [stray])) (plain_FRCL ++ [stray])
  = plain_FRCL /\
  raises (run decimal_literal false OLS_fit_predict (plain_FRCL ++ [stray])) = false /\
  raises (run decimal_literal false OLS_fit_predict plain_FRCL) = true.
Proof. split; [|split]; vm_compute; reflexivity. Qed.


(** ** The statements above at concrete inputs *)


(** * Further properties of the script *)

(** ** Comma stripping *)

Lemma string_app_assoc (a b c : string) :
  ((a ++ b) ++ c = a ++ (b ++ c))%string.
Proof. induction a as [|x a IH]; simpl; [reflexivity|]. rewrite IH. reflexivity. Qed.

Lemma str_replace_app (c : ascii) (repl s1 s2 : string) :
  str_replace c repl (s1 ++ s2)
  = (str_replace c repl s1 ++ str_replace c repl s2)%string.
Proof.
  induction s1 as [|a s1 IH]; simpl; [reflexivity|].
  destruct (Ascii.eqb a c); rewrite IH; simpl.
  - symmetry. apply string_app_assoc.
  - reflexivity.
Qed.

Lemma str_replace_no_char (c : ascii) (s : string) :
  contains_char c (str_replace c "" s) = false.
Proof.
  induction s as [|a s IH]; simpl; [reflexivity|].
  destruct (Ascii.eqb a c) eqn:E; simpl; [exact IH|].
  rewrite E, IH. reflexivity.
Qed.

Lemma str_replace_absent (c : ascii) (s : string) :
  contains_char c s = false -> str_replace c "" s = s.
Proof.
  induction s as [|a s IH]; simpl; [reflexivity|].
  intros H. apply orb_false_elim in H. destruct H as [Ha Hs].
  rewrite Ha, (IH Hs). reflexivity.
Qed.

(** X1. The FRCL cleaning removes every comma, wherever it stands: the
    cleaned text holds no comma, a text without commas is left as it is, and
    a comma inserted anywhere in an FRCL entry does not change the parsed
    value. *)
Theorem FRCL_commas_are_ignored :
  (forall s : string, contains_char "," (str_replace "," "" s) = false) /\
  (forall s : string,
     contains_char "," s = false -> str_replace "," "" s = s) /\
  (forall (str_to_float : string -> option Q) (s1 s2 : string),
     parse_FRCL str_to_float (Some (s1 ++ String "," s2)%string)
     = parse_FRCL str_to_float (Some (s1 ++ s2)%string)).
Proof.
  split; [apply str_replace_no_char|]. split; [apply str_replace_absent|].
  intros str_to_float s1 s2. unfold parse_FRCL, series_str_replace. simpl.
  rewrite !str_replace_app. simpl. reflexivity.
Qed.

(** ** Where the values of a selected record come from *)




(** In [padded_barcodes] both barcode columns are read as numbers, and the
    entry "007" pairs with the entry "7": both rows are joined with the
    first. *)
Example padded_barcodes_selected :
  exists selected,
    selected_data decimal_literal padded_barcodes = Ok selected /\
    map Barcode selected = [Some "7"; Some "7"] /\
    map DeltaEZ1 selected = [Num 0.2; Num 0.2].
Proof. eexists. split; [vm_compute; reflexivity|]. split; reflexivity. Qed.

(** ** Uploads that are refused *)

Lemma dtype_of_object_iff (str_to_float : string -> option Q) (col : list cell) :
  dtype_of str_to_float col = object
  <-> col = [] \/ exists s, In (Some s) col /\ str_to_float s = None.
Proof.
  unfold dtype_of. destruct col as [|c col]; [split; auto|].
  destruct (existsb (is_text str_to_float) (c :: col)) eqn:E.
  - split; [|reflexivity]. intros _. right.
    apply existsb_exists in E. destruct E as [x [Hx Ht]].
    unfold is_text, is_number in Ht. destruct x as [s|]; [|discriminate].
    exists s. split; [exact Hx|].
    destruct (str_to_float s); [discriminate|reflexivity].
  - split; [discriminate|]. intros [C|[s [Hs Hn]]]; [discriminate|].
    exfalso. assert (C : existsb (is_text str_to_float) (c :: col) = true);
      [|congruence].
    apply existsb_exists. exists (Some s). split; [exact Hs|].
    unfold is_text, is_number. rewrite Hn. reflexivity.
Qed.

(** X5. An upload is refused before any analysis, with an error, exactly
    when its two barcode columns are read with different types (the join
    raises) or its FRCL column is not a text column (the [.str] accessor
    raises); the FRCL column is a text column exactly when one of its
    entries is neither empty nor a number.  A run on a refused upload
    reports an error, whatever the regression does. *)
Theorem refused_uploads (str_to_float : string -> option Q) (data : list raw_row) :
  (raises (selected_data str_to_float data) = true
   <-> dtype_of str_to_float (map Barcode_AC data)
       <> dtype_of str_to_float (map Barcode_BC data)
       \/ text_column str_to_float (map FRCL_text data) = false) /\
  (text_column str_to_float (map FRCL_text data) = true
   <-> data = [] \/
       exists r s, In r data /\ FRCL_text r = Some s /\ str_to_float s = None) /\
  (forall (observed : bool) (fit : list Q -> list float -> result (list float)),
     raises (selected_data str_to_float data) = true ->
     raises (run str_to_float observed fit data) = true).
Proof.
  assert (R : raises (selected_data str_to_float data) = true
              <-> well_typed str_to_float data = false).
  { rewrite selected_data_raises. destruct (well_typed str_to_float data);
      simpl; split; congruence. }
  split; [|split].
  - rewrite R. unfold well_typed. rewrite andb_false_iff.
    split; intros [H|H]; auto.
    + left. intros C. apply dtype_eqb_eq in C. congruence.
    + left. destruct (dtype_eqb _ _) eqn:E; [|reflexivity].
      apply dtype_eqb_eq in E. congruence.
  - unfold text_column.
    pose proof (dtype_of_object_iff str_to_float (map FRCL_text data)) as D.
    destruct (dtype_of str_to_float (map FRCL_text data)).
    + split; [discriminate|]. intros C. exfalso.
      assert (number = object); [|discriminate]. apply D.
      destruct C as [->|[r [s [Hr [Hs Hn]]]]]; [left; reflexivity|].
      right. exists s. split; [|exact Hn]. rewrite <- Hs. apply in_map. exact Hr.
    + split; [|reflexivity]. intros _.
      destruct (proj1 D eq_refl) as [C|[s [Hs Hn]]].
      * left. destruct data; [reflexivity|discriminate].
      * right. apply in_map_iff in Hs. destruct Hs as [r [Hs Hr]].
        exists r, s. auto.
  - intros observed fit H. apply run_raises. left. apply R. exact H.
Qed.

(** X5 on [plain_FRCL], an FRCL column of plain numbers, and on
    [mixed_barcodes], numbers against texts. *)
Lemma refused_samples :
  raises (run decimal_literal false OLS_fit_predict plain_FRCL) = true /\
  raises (run decimal_literal false OLS_fit_predict mixed_barcodes) = true.
Proof.
  split.
  - apply (proj2 (proj2 (refused_uploads decimal_literal plain_FRCL))). reflexivity.
  - apply (proj2 (proj2 (refused_uploads decimal_literal mixed_barcodes))). reflexivity.
Defined.

(** ** Empty aggregate tables *)

Lemma insert_key_not_nil (q : Q) (ks : list Q) : insert_key q ks <> [].
Proof. destruct ks as [|k ks]; simpl; [|destruct (q ?= k)]; discriminate. Qed.

Lemma grouped_nil_iff (t : list (record float)) :
  grouped t = [] <-> filter has_DeltaEZ1 t = [].
Proof.
  unfold grouped, group_keys. split.
  - intros H. apply map_eq_nil in H.
    induction t as [|r t IH]; simpl in *; [reflexivity|].
    unfold has_DeltaEZ1 at 1. destruct (DeltaEZ1 r) as [|q]; simpl in *.
    + apply IH, H.
    + exfalso. exact (insert_key_not_nil _ _ H).
  - intros H.
    assert (E : dropna (map DeltaEZ1 t) = []).
    { induction t as [|r t IH]; simpl in *; [reflexivity|].
      unfold has_DeltaEZ1 in H at 1. destruct (DeltaEZ1 r) as [|q]; simpl in *.
      - apply IH, H.
      - discriminate. }
    rewrite E. reflexivity.
Qed.

Lemma filtered_all_have_DeltaEZ1 (t : list (record float)) :
  filter has_DeltaEZ1 (filtered_data t) = filtered_data t.
Proof.
  unfold filtered_data. induction t as [|r t IH]; simpl; [reflexivity|].
  destruct (in_range r) eqn:E; [|exact IH]. simpl.
  apply in_range_spec in E. destruct E as [q [Hq _]].
  unfold has_DeltaEZ1 at 1. rewrite Hq. simpl. rewrite IH. reflexivity.
Qed.

(** ** Groups *)

Lemma no_key_after (q : Q) (ks : list Q) :
  Forall (Qlt q) ks ->
  list_sum (map (fun k => if Qeq_bool q k then 1 else 0)%nat ks) = 0%nat.
Proof.
  induction 1 as [|k ks Hk _ IH]; simpl; [reflexivity|].
  destruct (Qeq_bool q k) eqn:E; [|exact IH].
  apply Qeq_bool_iff in E. lra.
Qed.

Lemma one_key_matches (q : Q) (ks : list Q) :
  StronglySorted Qlt ks -> (exists k, In k ks /\ k == q) ->
  list_sum (map (fun k => if Qeq_bool q k then 1 else 0)%nat ks) = 1%nat.
Proof.
  induction 1 as [|k ks Hs IH Hall]; intros [k' [Hin Hq]]; [destruct Hin|].
  simpl. destruct (Qeq_bool q k) eqn:E.
  - apply Qeq_bool_iff in E. rewrite no_key_after; [reflexivity|].
    eapply Forall_impl; [|exact Hall]. simpl. intros a Ha. lra.
  - destruct Hin as [->|Hin].
    + exfalso. assert (Qeq_bool q k' = true); [|congruence].
      apply Qeq_bool_iff. lra.
    + apply IH. exists k'. auto.
Qed.

Lemma list_sum_map_zero {A : Type} (l : list A) :
  list_sum (map (fun _ => 0%nat) l) = 0%nat.
Proof. induction l as [|a l IH]; simpl; [reflexivity|exact IH]. Qed.

Lemma group_sizes (ks : list Q) (t : list (record float)) :
  StronglySorted Qlt ks ->
  (forall q, In (Num q) (map DeltaEZ1 t) -> exists k, In k ks /\ k == q) ->
  list_sum (map (fun k => List.length (group k t)) ks)
  = List.length (filter has_DeltaEZ1 t).
Proof.
  intros Hs. induction t as [|r t IH]; intros Hcov.
  - simpl. apply list_sum_map_zero.
  - rewrite (list_sum_map_ext_in _
               (fun k => (if has_key k r then 1 else 0)
                         + List.length (group k t))%nat).
    + rewrite list_sum_map_add, IH
        by (intros q Hq; apply Hcov; right; exact Hq).
      simpl filter. unfold has_DeltaEZ1 at 2, has_key.
      destruct (DeltaEZ1 r) as [|q] eqn:E; simpl.
      * rewrite list_sum_map_zero. reflexivity.
      * rewrite one_key_matches; [reflexivity|exact Hs|].
        apply Hcov. left. exact E.
    + intros k _. unfold group. simpl. destruct (has_key k r); reflexivity.
Qed.

Lemma has_key_refl (r : record float) (q : Q) :
  DeltaEZ1 r = Num q -> has_key q r = true.
Proof. intros H. unfold has_key. rewrite H. apply Qeq_bool_iff. reflexivity. Qed.

(** X6. The aggregate table partitions the records that have a DeltaEZ1
    value: no aggregate row stands for an empty group, the group sizes add
    up to the number of those records, a group counts at most as many tires
    as it has records, and every record with a DeltaEZ1 value is in the
    group of the row with that value. *)
Theorem groups_partition_records (t : list (record float)) :
  Forall (fun a =>
            group (group_DeltaEZ1 a) t <> [] /\
            (Number_of_Tires a <= List.length (group (group_DeltaEZ1 a) t))%nat)
         (grouped t) /\
  list_sum (map (fun a => List.length (group (group_DeltaEZ1 a) t)) (grouped t))
  = List.length (filter has_DeltaEZ1 t) /\
  (forall (r : record float) (q : Q),
     In r t -> DeltaEZ1 r = Num q ->
     exists a, In a (grouped t) /\ group_DeltaEZ1 a == q /\
               In r (group (group_DeltaEZ1 a) t)).
Proof.
  split; [|split].
  - apply Forall_forall. intros a Ha. unfold grouped in Ha.
    apply in_map_iff in Ha. destruct Ha as [k [<- Hk]]. simpl. split.
    + apply group_keys_In in Hk. apply in_map_iff in Hk.
      destruct Hk as [r [Hr Hin]]. intros C.
      assert (Hg : In r (group k t)).
      { unfold group. apply filter_In. split; [exact Hin|].
        apply has_key_refl. exact Hr. }
      rewrite C in Hg. destruct Hg.
    + rewrite <- (length_map Barcode (group k t)). apply nunique_le.
  - unfold grouped. rewrite map_map. simpl.
    apply group_sizes; [apply group_keys_sorted|].
    intros q Hq. apply group_keys_complete. exact Hq.
  - intros r q Hin Hq.
    destruct (group_keys_complete (map DeltaEZ1 t) q) as [k [Hk Hkq]].
    { rewrite <- Hq. apply in_map. exact Hin. }
    exists (aggregate k t). split; [|split].
    + unfold grouped. apply (in_map (fun k0 => aggregate k0 t)). exact Hk.
    + exact Hkq.
    + simpl. unfold group. apply filter_In. split; [exact Hin|].
      unfold has_key. rewrite Hq. apply Qeq_bool_iff. symmetry. exact Hkq.
Qed.

(** ** Missing values inside a group *)

Lemma mean_NaN_iff (l : list float) :
  mean l = NaN <-> forall x, In x l -> x = NaN.
Proof.
  unfold mean. split.
  - intros H x Hx. destruct (dropna l) as [|q qs] eqn:E; [|discriminate].
    clear H. induction l as [|y l IH]; [destruct Hx|].
    destruct y as [|p]; simpl in E; [|discriminate].
    destruct Hx as [<-|Hx]; [reflexivity|auto].
  - intros H.
    assert (E : dropna l = []).
    { induction l as [|y l IH]; [reflexivity|].
      rewrite (H y (or_introl eq_refl)). simpl. apply IH.
      intros x Hx. apply H. right. exact Hx. }
    rewrite E. reflexivity.
Qed.

Lemma nunique_zero_iff (l : list cell) :
  nunique l = 0%nat <-> forall x, In x l -> x = None.
Proof.
  unfold nunique. split.
  - intros H x Hx. destruct x as [s|]; [|reflexivity]. exfalso.
    assert (Hs : In s (nodup string_dec (present l))).
    { apply nodup_In. clear H. induction l as [|y l IH]; [destruct Hx|].
      destruct Hx as [->|Hx]; simpl; [left; reflexivity|].
      destruct y; simpl; auto. }
    destruct (nodup string_dec (present l)); [destruct Hs|discriminate].
  - intros H.
    assert (E : present l = []).
    { induction l as [|y l IH]; [reflexivity|].
      rewrite (H y (or_introl eq_refl)). simpl. apply IH.
      intros x Hx. apply H. right. exact Hx. }
    rewrite E. reflexivity.
Qed.

(** X7. In an aggregate row the average FRCL is NaN exactly when every
    record of the group has a missing FRCL, and the number of tires is zero
    exactly when every record of the group has a missing barcode. *)
Theorem aggregate_of_missing_values (k : Q) (t : list (record float)) :
  (Average_FRCL (aggregate k t) = NaN
   <-> forall r, In r (group k t) -> FRCL r = NaN) /\
  (Number_of_Tires (aggregate k t) = 0%nat
   <-> forall r, In r (group k t) -> Barcode r = None).
Proof.
  simpl. rewrite mean_NaN_iff, nunique_zero_iff. split; split.
  - intros H r Hr. apply H. apply in_map. exact Hr.
  - intros H x Hx. apply in_map_iff in Hx. destruct Hx as [r [<- Hr]]. auto.
  - intros H r Hr. apply H. apply in_map. exact Hr.
  - intros H x Hx. apply in_map_iff in Hx. destruct Hx as [r [<- Hr]]. auto.
Qed.

(** ** The prediction column *)

(** X8. A run that succeeds, with the reference regression, returns the
    aggregate table of its own filtered records, each row once and in
    order, with one prediction per row; that table is never empty. *)
Theorem one_prediction_per_group (str_to_float : string -> option Q)
        (observed : bool) (data : list raw_row) (out : analysis) :
  run str_to_float observed OLS_fit_predict data = Ok out ->
  map fst (out_grouped out) = grouped (filtered_data (out_selected out)) /\
  List.length (map snd (out_grouped out))
  = List.length (grouped (filtered_data (out_selected out))) /\
  out_grouped out <> [].
Proof.
  intros H. pose proof (run_ok_inv _ _ _ _ _ H) as [_ [_ [[pred [Hp _]] _]]].
  apply run_reference_inv in H. destruct H as [Hs [Hg _]]. rewrite Hs.
  split; [exact Hg|]. split.
  - rewrite <- Hg, !length_map. reflexivity.
  - intros C. rewrite C in Hg. simpl in Hg. rewrite <- Hg in Hp.
    discriminate.
Qed.

(** X8 on the upload [one_tire]. *)
Lemma one_prediction_one_tire :
  exists out, run decimal_literal false OLS_fit_predict one_tire = Ok out /\
    List.length (map snd (out_grouped out)) = 1%nat.
Proof.
  eexists. split; [reflexivity|].
  exact (proj1 (proj2 (one_prediction_per_group decimal_literal false one_tire _ eq_refl))).
Defined.

(** ** The two ends of the range *)

Lemma filtered_In (selected : list (record float)) (r : record float) (q : Q) :
  In r selected -> DeltaEZ1 r = Num q -> -3 <= q -> q <= 3 ->
  In r (filtered_data selected).
Proof.
  intros Hin Hq Hlo Hhi. unfold filtered_data. apply filter_In.
  split; [exact Hin|]. apply in_range_spec. exists q. auto.
Qed.

(** X10. Both ends of the range pass the filter.  A record measured at
    exactly -3 is counted in the first bucket.  A record measured at
    exactly 3 has its row in the aggregate table but is in no bucket, so the
    two tables do not cover the same records. *)
Theorem range_endpoints (selected : list (record float)) (r : record float)
        (q : Q) :
  In r selected -> DeltaEZ1 r = Num q ->
  (q == -3 ->
   In r (filtered_data selected) /\ In r (bucket 0 (filtered_data selected))) /\
  (q == 3 ->
   In r (filtered_data selected) /\
   (exists a, In a (grouped (filtered_data selected)) /\ group_DeltaEZ1 a == 3 /\
              In r (group (group_DeltaEZ1 a) (filtered_data selected))) /\
   forall i, ~ In r (bucket i (filtered_data selected))).
Proof.
  intros Hin Hq. split; intros E.
  - assert (Hf : In r (filtered_data selected))
      by (apply (filtered_In selected r q); auto; lra).
    split; [exact Hf|]. unfold bucket. apply filter_In. split; [exact Hf|].
    apply in_bucket_iff. unfold DeltaEZ1_Range. rewrite Hq.
    apply cut_in_bucket; [lia| |].
    + assert (bin_edge 0 == -3) by reflexivity. lra.
    + assert (bin_edge (0 + 1) == -(5 # 2)) by reflexivity. lra.
  - assert (Hf : In r (filtered_data selected))
      by (apply (filtered_In selected r q); auto; lra).
    split; [exact Hf|]. split.
    + destruct (group_keys_complete (map DeltaEZ1 (filtered_data selected)) q)
        as [k [Hk Hkq]].
      { rewrite <- Hq. apply in_map. exact Hf. }
      exists (aggregate k (filtered_data selected)). split; [|split].
      * unfold grouped.
        apply (in_map (fun k0 => aggregate k0 (filtered_data selected))). exact Hk.
      * simpl. lra.
      * simpl. unfold group. apply filter_In. split; [exact Hf|].
        unfold has_key. rewrite Hq. apply Qeq_bool_iff. symmetry. exact Hkq.
    + intros i C. unfold bucket in C. apply filter_In in C. destruct C as [_ C].
      apply in_bucket_iff in C. unfold DeltaEZ1_Range in C. rewrite Hq in C.
      rewrite cut_above in C by lra. discriminate.
Qed.

(** X10 on the record of tire T3 in [three_tires], measured at 3.0. *)
Lemma tire_at_3_in_no_bucket :
  Forall (fun i =>
    ~ In (mk_record (Some "FM2") (Some "2024-01-06") (Some "T3") (Num 2000) (Num 3.0))
         (bucket i (filtered_data (selected_rows decimal_literal three_tires))))
    (seq 0 12).
Proof.
  apply Forall_forall. intros i _. revert i.
  apply (proj2 (range_endpoints (selected_rows decimal_literal three_tires)
                  (mk_record (Some "FM2") (Some "2024-01-06") (Some "T3")
                             (Num 2000) (Num 3.0))
                  3.0 (or_intror (or_intror (or_introl eq_refl))) eq_refl)).
  reflexivity.
Defined.

(** ** Uploads with unique barcodes *)

Section UniqueKeys.

Variable str_to_float : string -> option Q.
Variable d : dtype.





End UniqueKeys.






(** In [padded_barcodes] the Barcode(AC) entries "007" and "7" differ as
    texts but are one number in a numeric column, and both rows are joined
    with the same partner. *)
Example padded_barcodes_fan_out :
  NoDup (map Barcode_AC padded_barcodes) /\
  map (fun r => astype decimal_literal (key_dtype decimal_literal padded_barcodes)
                       (Barcode_AC r)) padded_barcodes
  = [Some "7"; Some "7"] /\
  List.length (joined decimal_literal padded_barcodes) = 2%nat.
Proof.
  split; [|split; reflexivity].
  repeat (constructor; [simpl; intuition discriminate|]). constructor.
Qed.





(** ** The spreadsheet report *)

Section ReportFacts.

Import Report.






Lemma style_cell_keeps (sheet : string) (c : xcell) :
  row (style_cell sheet c) = row c /\
  column (style_cell sheet c) = column c /\
  value (style_cell sheet c) = value c.
Proof. unfold style_cell. destruct (row c =? 1)%nat; simpl; auto. Qed.

Lemma style_sheet_values (sheet : string) (ws : worksheet) :
  sheet_values (style_sheet sheet ws) = sheet_values ws.
Proof.
  unfold sheet_values, style_sheet. rewrite map_map. apply map_ext.
  intros r. rewrite map_map. apply map_ext. intros c.
  apply style_cell_keeps.
Qed.






End ReportFacts.

Section WorkbookFacts.

Import Report.

Lemma get_sheet_In (n : string) (wb : workbook) :
  get_sheet n wb <> None <-> In n (map fst wb).
Proof.
  induction wb as [|[m ws] wb IH]; simpl; [tauto|].
  destruct (String.eqb_spec m n) as [->|N].
  - split; [auto|discriminate].
  - rewrite IH. split; [auto|]. intros [C|C]; [congruence|exact C].
Qed.

Lemma set_sheet_names (n : string) (ws : worksheet) (wb : workbook) :
  map fst (set_sheet n ws wb) = map fst wb.
Proof.
  induction wb as [|[m old] wb IH]; simpl; [reflexivity|].
  destruct (String.eqb m n); simpl; [reflexivity|]. rewrite IH. reflexivity.
Qed.

Lemma get_set_same (n : string) (ws old : worksheet) (wb : workbook) :
  get_sheet n wb = Some old -> get_sheet n (set_sheet n ws wb) = Some ws.
Proof.
  induction wb as [|[m w] wb IH]; simpl; [discriminate|].
  destruct (String.eqb m n) eqn:E; simpl; rewrite E; [reflexivity|exact IH].
Qed.

Lemma get_set_other (m n : string) (ws : worksheet) (wb : workbook) :
  m <> n -> get_sheet m (set_sheet n ws wb) = get_sheet m wb.
Proof.
  intros N. induction wb as [|[k w] wb IH]; simpl; [reflexivity|].
  destruct (String.eqb_spec k n) as [->|Nk]; simpl.
  - destruct (String.eqb_spec n m) as [->|_]; [congruence|reflexivity].
  - rewrite IH. reflexivity.
Qed.

Lemma set_sheet_current (n : string) (ws : worksheet) (wb : workbook) :
  get_sheet n wb = Some ws -> set_sheet n ws wb = wb.
Proof.
  induction wb as [|[m w] wb IH]; simpl; [reflexivity|].
  destruct (String.eqb m n); intros H.
  - injection H as ->. reflexivity.
  - rewrite (IH H). reflexivity.
Qed.

Lemma style_cell_idem (sheet : string) (c : xcell) :
  style_cell sheet (style_cell sheet c) = style_cell sheet c.
Proof.
  unfold style_cell. destruct (row c =? 1)%nat eqn:E; simpl; rewrite E; reflexivity.
Qed.

Lemma style_sheet_idem (sheet : string) (ws : worksheet) :
  style_sheet sheet (style_sheet sheet ws) = style_sheet sheet ws.
Proof.
  unfold style_sheet. rewrite map_map. apply map_ext. intros r.
  rewrite map_map. apply map_ext. intros c. apply style_cell_idem.
Qed.

Lemma style_workbook_Some (wb wb' : workbook) :
  style_workbook wb = Some wb' ->
  exists ws1 ws2,
    get_sheet "Selected Data" wb = Some ws1 /\
    get_sheet "Range Count" wb = Some ws2 /\
    wb' = set_sheet "Range Count" (style_sheet "Range Count" ws2)
            (set_sheet "Selected Data" (style_sheet "Selected Data" ws1) wb).
Proof.
  unfold style_workbook. simpl.
  destruct (get_sheet "Selected Data" wb) as [ws1|] eqn:E1; [|discriminate].
  rewrite get_set_other by discriminate.
  destruct (get_sheet "Range Count" wb) as [ws2|] eqn:E2; [|discriminate].
  intros H. injection H as <-. exists ws1, ws2. auto.
Qed.

(** X15. Styling needs both sheets: on a workbook that lacks "Selected
    Data" or "Range Count" the lookup fails and nothing is saved.
    Otherwise the saved workbook has the same sheets in the same order and
    the same values in every sheet, a sheet with another name is left
    untouched, and styling the saved workbook once more changes nothing. *)
Theorem style_workbook_behaviour (wb : workbook) :
  (style_workbook wb = None
   <-> ~ (In "Selected Data" (map fst wb) /\ In "Range Count" (map fst wb))) /\
  (forall wb', style_workbook wb = Some wb' ->
     map fst wb' = map fst wb /\
     (forall n, option_map sheet_values (get_sheet n wb')
                = option_map sheet_values (get_sheet n wb)) /\
     (forall n, n <> "Selected Data" -> n <> "Range Count" ->
                get_sheet n wb' = get_sheet n wb) /\
     style_workbook wb' = Some wb').
Proof.
  split.
  - rewrite <- !get_sheet_In. unfold style_workbook. simpl.
    destruct (get_sheet "Selected Data" wb) as [ws1|] eqn:E1.
    + rewrite get_set_other by discriminate.
      destruct (get_sheet "Range Count" wb) as [ws2|] eqn:E2.
      * split; [discriminate|]. intros C. exfalso. apply C.
        split; discriminate.
      * split; [|reflexivity]. intros _ [_ C]. apply C. reflexivity.
    + split; [|reflexivity]. intros _ [C _]. apply C. reflexivity.
  - intros wb' H. apply style_workbook_Some in H.
    destruct H as [ws1 [ws2 [E1 [E2 ->]]]].
    set (wb1 := set_sheet "Selected Data" (style_sheet "Selected Data" ws1) wb).
    assert (G1 : get_sheet "Selected Data" wb1
                 = Some (style_sheet "Selected Data" ws1))
      by (apply (get_set_same _ _ ws1); exact E1).
    assert (G2 : get_sheet "Range Count" wb1 = Some ws2)
      by (unfold wb1; rewrite get_set_other by discriminate; exact E2).
    split; [|split; [|split]].
    + unfold wb1. rewrite !set_sheet_names. reflexivity.
    + intros n. destruct (string_dec n "Range Count") as [->|N2].
      * rewrite (get_set_same _ _ ws2) by exact G2. rewrite E2. simpl.
        rewrite style_sheet_values. reflexivity.
      * rewrite get_set_other by exact N2.
        destruct (string_dec n "Selected Data") as [->|N1].
        -- rewrite G1, E1. simpl. rewrite style_sheet_values. reflexivity.
        -- unfold wb1. rewrite get_set_other by exact N1. reflexivity.
    + intros n N1 N2. unfold wb1. rewrite !get_set_other by assumption.
      reflexivity.
    + unfold style_workbook. simpl.
      rewrite (get_set_other "Selected Data" "Range Count") by discriminate.
      rewrite G1, style_sheet_idem.
      rewrite (set_sheet_current "Selected Data")
        by (rewrite get_set_other by discriminate; exact G1).
      rewrite (get_set_same _ _ ws2) by exact G2.
      rewrite style_sheet_idem.
      rewrite (set_sheet_current "Range Count")
        by (apply (get_set_same _ _ ws2); exact G2).
      reflexivity.
Qed.

End WorkbookFacts.

(** ** Tires and buckets *)

Lemma In_present {A : Type} (a : A) (l : list (option A)) :
  In (Some a) l -> In a (present l).
Proof.
  induction l as [|[b|] l IH]; simpl; [tauto| |].
  - intros [H|H]; [injection H as ->; left; reflexivity|right; auto].
  - intros [H|H]; [discriminate|auto].
Qed.

Lemma length_flat_map_sum {A B : Type} (f : A -> list B) (l : list A) :
  List.length (flat_map f l) = list_sum (map (fun a => List.length (f a)) l).
Proof.
  induction l as [|a l IH]; simpl; [reflexivity|].
  rewrite length_app, IH. reflexivity.
Qed.

(** X16. The tire counts of the Range Count rows add up to at least the
    number of distinct barcodes among the records that fall in a bucket,
    whether or not empty buckets are listed: a tire measured in several
    buckets is counted in each of them, and none is lost. *)
Theorem total_tires_at_least_distinct (observed : bool) (t : list (record float)) :
  (nunique (map Barcode (filter assigned t))
   <= total_tires (range_count_df observed t))%nat.
Proof.
  assert (Hsum : total_tires (range_count_df observed t)
                 = List.length
                     (flat_map (fun i => nodup string_dec
                                           (present (map Barcode (bucket i t))))
                               (seq 0 12))).
  { rewrite length_flat_map_sum. rewrite total_tires_sum. reflexivity. }
  rewrite Hsum. unfold nunique.
  apply NoDup_incl_length; [apply NoDup_nodup|].
  intros s Hs. apply nodup_In in Hs. apply present_In in Hs.
  apply in_map_iff in Hs. destruct Hs as [r [Hb Hr]].
  apply filter_In in Hr. destruct Hr as [Hin Ha].
  unfold assigned in Ha. destruct (DeltaEZ1_Range r) as [j|] eqn:E; [|discriminate].
  apply in_flat_map. exists j. split.
  - apply in_seq. pose proof (DeltaEZ1_Range_lt r j E). lia.
  - apply nodup_In. apply In_present. rewrite <- Hb. apply in_map.
    unfold bucket. apply filter_In. split; [exact Hin|].
    apply in_bucket_iff. exact E.
Qed.

(** ** The charts *)

Section ChartFacts.

Import Charts.

Lemma range_count_labels (t : list (record float)) :
  map Range_label (range_count_df false t) = bin_labels.
Proof.
  unfold range_count_df. rewrite listed_all, map_map. reflexivity.
Qed.

Lemma range_count_labels_incl (observed : bool) (t : list (record float)) :
  incl (map Range_label (range_count_df observed t)) bin_labels.
Proof.
  intros s Hs. apply in_map_iff in Hs. destruct Hs as [row [<- Hrow]].
  apply range_count_df_In in Hrow. destruct Hrow as [i [Hi [_ ->]]].
  cbn [Range_label]. apply nth_In. exact Hi.
Qed.

(** X18. For a run that succeeds with a regression that returns one
    prediction for each row it is given, the bar chart of tires and both
    traces of the regression chart are drawn over the same x values, the
    DeltaEZ1 values of the aggregate table in strictly ascending order,
    with one y value for each.  The range chart has one bar for each row
    of the Range Count table, in the order of the table: its x values are
    bin labels, all 12 of them when empty buckets are listed, and its bar
    heights add up to the total of the table. *)
Theorem charts_of_a_run (str_to_float : string -> option Q) (observed : bool)
        (fit : list Q -> list float -> result (list float))
        (data : list raw_row) (out : analysis) :
  (forall xs ys pred, fit xs ys = Ok pred -> List.length pred = List.length xs) ->
  run str_to_float observed fit data = Ok out ->
  let keys := map group_DeltaEZ1 (grouped (filtered_data (out_selected out))) in
  StronglySorted Qlt keys /\
  Forall (fun t => x t = keys /\ List.length (y t) = List.length keys)
         (traces (fig1 out)) /\
  Forall (fun t => x t = keys /\ List.length (y t) = List.length keys)
         (traces (fig2 out)) /\
  Forall (fun t => x t = map Range_label (out_range_count out) /\
                   y t = map Range_tires (out_range_count out) /\
                   List.length (y t) = List.length (x t) /\
                   incl (x t) bin_labels /\
                   (observed = false ->
                    x t = bin_labels /\ List.length (y t) = 12%nat) /\
                   list_sum (y t) = total_tires (out_range_count out))
         (traces (fig3 out)).
Proof.
  intros Hfit H keys. apply run_ok_inv in H.
  destruct H as [_ [Hs [[pred [Hp Hg]] Hrc]]].
  assert (Hx : col_DeltaEZ1 (out_grouped out) = keys).
  { unfold col_DeltaEZ1, keys.
    rewrite <- (map_map fst group_DeltaEZ1), Hg, Hs.
    rewrite map_fst_combine; [reflexivity|].
    apply Hfit in Hp. rewrite Hp. apply length_map. }
  assert (Hlen : List.length (out_grouped out) = List.length keys).
  { rewrite <- Hx. unfold col_DeltaEZ1. rewrite length_map. reflexivity. }
  split; [|split; [|split]].
  - unfold keys. rewrite grouped_keys. apply group_keys_sorted.
  - simpl. repeat constructor; simpl; [exact Hx|].
    unfold col_Number_of_Tires. rewrite length_map. exact Hlen.
  - simpl. repeat constructor; simpl; try exact Hx.
    + unfold col_Average_FRCL. rewrite length_map. exact Hlen.
    + unfold col_OLS_Prediction. rewrite length_map. exact Hlen.
  - simpl. constructor; [|constructor]. simpl.
    split; [reflexivity|]. split; [reflexivity|].
    split; [rewrite !length_map; reflexivity|].
    split; [rewrite Hrc; apply range_count_labels_incl|].
    split; [|reflexivity].
    intros ->. rewrite Hrc. split; [apply range_count_labels|].
    transitivity (List.length (map Range_label
                                 (range_count_df false
                                    (filtered_data (selected_rows str_to_float data))))).
    + rewrite !length_map. reflexivity.
    + rewrite range_count_labels. reflexivity.
Qed.

(** X18 on the upload [one_tire]: with the default that lists only the
    buckets with a record, the range chart has a single bar. *)
Lemma charts_one_tire :
  exists out, run decimal_literal true OLS_fit_predict one_tire = Ok out /\
    List.length (out_range_count out) = 1%nat /\
    Forall (fun t => x t = map Range_label (out_range_count out) /\
                     y t = map Range_tires (out_range_count out) /\
                     List.length (y t) = List.length (x t) /\
                     incl (x t) bin_labels /\
                     (true = false ->
                      x t = bin_labels /\ List.length (y t) = 12%nat) /\
                     list_sum (y t) = total_tires (out_range_count out))
           (traces (fig3 out)).
Proof.
  eexists. split; [vm_compute; reflexivity|]. split; [reflexivity|].
  apply (charts_of_a_run decimal_literal true OLS_fit_predict one_tire).
  - exact OLS_fit_predict_length.
  - vm_compute. reflexivity.
Defined.

End ChartFacts.
